(** * The negotiator's message-to-decision pipeline ([src/negotiator.py])

    A shallow embedding of [parse_game_state], [get_action_type],
    [call_claude] and [handle_negotiation_message], and the properties of
    the pipeline stated in the specification.

    Conventions of the embedding:
    - a Python [str] is the list of its Unicode code points;
    - a value produced by [json.loads] (and every dict the pipeline builds)
      is a [json] tree; a dict keeps its insertion order;
    - a Python call either returns or raises: [result];
    - the three things the module takes from outside itself ([json.loads],
      the built-in [repr] behind f-string formatting, and the Anthropic
      client) are the fields of the class [Runtime];
    - the requests sent to the client are logged, so that "no call is made"
      is a statement about the log. *)

From Stdlib Require Import List ZArith NArith Bool Ascii String Lia.
Import ListNotations.
Local Open Scope Z_scope.
Set Warnings "-register-all".

(* ================================================================== *)
(** * Python strings *)
(* ================================================================== *)

(** A code point. *)
Definition char := N.

(** A Python [str]. *)
Definition pystr := list char.

Definition ch (a : ascii) : char := N_of_ascii a.
Arguments ch a%_char.

(** The code points of an ASCII literal. *)
Definition py (s : string) : pystr := map N_of_ascii (list_ascii_of_string s).
Arguments py s%_string.

(** The double quote, and a literal in which every apostrophe stands for a
    double quote (for writing JSON text). *)
Definition dquote : char := 34%N.

Definition pyj (s : string) : pystr :=
  map (fun c => if N.eqb c 39 then dquote else c) (py s).
Arguments pyj s%_string.

Definition newline : pystr := [10%N].

Fixpoint str_eqb (a b : pystr) : bool :=
  match a, b with
  | [], [] => true
  | x :: a', y :: b' => N.eqb x y && str_eqb a' b'
  | _, _ => false
  end.

Definition len (s : pystr) : Z := Z.of_nat (List.length s).

(** [s.startswith(sub)] *)
Fixpoint startswith (sub s : pystr) : bool :=
  match sub, s with
  | [], _ => true
  | x :: sub', y :: s' => N.eqb x y && startswith sub' s'
  | _ :: _, [] => false
  end.

(** Lowest index [>= i] at which [sub] occurs, where [s] is the text from
    index [i] on; [-1] if there is none. *)
Fixpoint find_at (sub s : pystr) (i : Z) : Z :=
  if startswith sub s then i
  else match s with
       | [] => -1
       | _ :: s' => find_at sub s' (i + 1)
       end.

(** [s.find(sub)] *)
Definition find (sub s : pystr) : Z := find_at sub s 0.

(** [sub in s] *)
Definition contains (sub s : pystr) : bool := negb (find sub s =? -1).

(** A slice bound as Python normalises it: a negative bound counts from the
    end, and the result is clamped to [0 .. len s]. *)
Definition clamp (s : pystr) (i : Z) : Z :=
  let i := if i <? 0 then i + len s else i in
  Z.max 0 (Z.min i (len s)).

(** [s[a:b]] *)
Definition slice (s : pystr) (a b : Z) : pystr :=
  let a := clamp s a in
  let b := clamp s b in
  firstn (Z.to_nat (b - a)) (skipn (Z.to_nat a) s).

(** [s[a:]] *)
Definition slice_from (s : pystr) (a : Z) : pystr :=
  skipn (Z.to_nat (clamp s a)) s.

(** [s.find(sub, start)] *)
Definition find_from (sub s : pystr) (start : Z) : Z :=
  let start := if start <? 0 then Z.max 0 (start + len s) else start in
  if len s <? start then -1
  else find_at sub (skipn (Z.to_nat start) s) start.

(** Highest index at which [sub] occurs ([last] if none), where [s] is the
    text from index [i] on. *)
Fixpoint rfind_at (sub s : pystr) (i last : Z) : Z :=
  let last := if startswith sub s then i else last in
  match s with
  | [] => last
  | _ :: s' => rfind_at sub s' (i + 1) last
  end.

(** [s.rfind(sub)] *)
Definition rfind (sub s : pystr) : Z := rfind_at sub s 0 (-1).

(** [c.isspace()]: the code points [str.strip()] removes. *)
Definition isspace (c : char) : bool :=
  ((9 <=? c) && (c <=? 13) || (28 <=? c) && (c <=? 32)
   || (c =? 133) || (c =? 160) || (c =? 5760)
   || (8192 <=? c) && (c <=? 8202)
   || (c =? 8232) || (c =? 8233) || (c =? 8239) || (c =? 8287)
   || (c =? 12288))%N.

Fixpoint lstrip (s : pystr) : pystr :=
  match s with
  | c :: s' => if isspace c then lstrip s' else s
  | [] => []
  end.

Definition rstrip (s : pystr) : pystr := rev (lstrip (rev s)).

(** [s.strip()] *)
Definition strip (s : pystr) : pystr := rstrip (lstrip s).

(* ================================================================== *)
(** * Python values *)
(* ================================================================== *)

(** A Python [float] is kept as the expression that computes it: the code
    never compares floats nor branches on them. *)
Inductive pyfloat : Type :=
| FLit (literal : pystr)          (* the float a literal denotes *)
| FOfInt (z : Z)                  (* [float(z)] *)
| FFloorDiv (x y : pyfloat)       (* [x // y] *)
| FSub (x y : pyfloat).           (* [x - y] *)

(** The values [json.loads] builds, which are also the values the pipeline
    handles and returns: [None], [bool], [int], [float], [str], [list] and
    [dict] with [str] keys (in insertion order, keys distinct). *)
Inductive json : Type :=
| JNull
| JBool (b : bool)
| JInt (z : Z)
| JFloat (f : pyfloat)
| JStr (s : pystr)
| JList (items : list json)
| JDict (items : list (pystr * json)).

Definition pydict := list (pystr * json).

(** [d[k]] if present. *)
Fixpoint lookup (k : pystr) (d : pydict) : option json :=
  match d with
  | [] => None
  | (k', v) :: d' => if str_eqb k k' then Some v else lookup k d'
  end.

(** [d[k] = v]: a present key keeps its place. *)
Fixpoint dict_set (k : pystr) (v : json) (d : pydict) : pydict :=
  match d with
  | [] => [(k, v)]
  | (k', v') :: d' =>
      if str_eqb k k' then (k', v) :: d' else (k', v') :: dict_set k v d'
  end.

(** [type(v).__name__] *)
Definition type_name (v : json) : pystr :=
  match v with
  | JNull => py "NoneType"
  | JBool _ => py "bool"
  | JInt _ => py "int"
  | JFloat _ => py "float"
  | JStr _ => py "str"
  | JList _ => py "list"
  | JDict _ => py "dict"
  end.

(* ================================================================== *)
(** * Exceptions *)
(* ================================================================== *)

(** The exception classes the module can meet; every one of them derives
    from [Exception], [JSONDecodeError] derives from [ValueError], and
    [RecursionError] (a [RuntimeError]) does not. *)
Inductive exc_class : Type :=
| JSONDecodeError
| ValueError
| AttributeError
| TypeError
| OtherException
| RecursionError.

(** A raised exception: its class and [str(e)]. *)
Record exception : Type := Exc { exc_type : exc_class; exc_str : pystr }.

(** [isinstance(e, (json.JSONDecodeError, ValueError))] *)
Definition is_ValueError (e : exception) : bool :=
  match exc_type e with
  | JSONDecodeError | ValueError => true
  | _ => false
  end.

(** The outcome of a call. *)
Inductive result (A : Type) : Type :=
| Ok (a : A)
| Raise (e : exception).
Arguments Ok {A} a.
Arguments Raise {A} e.

Definition rbind {A B} (r : result A) (k : A -> result B) : result B :=
  match r with
  | Ok a => k a
  | Raise e => Raise e
  end.

(** A run of code that may also call the decision oracle: the prompts it
    sent, in order, and its outcome. *)
Record Py (A : Type) : Type := Run { calls : list pystr; outcome : result A }.
Arguments Run {A} calls outcome.
Arguments calls {A} p.
Arguments outcome {A} p.

Definition pbind {A B} (m : Py A) (k : A -> Py B) : Py B :=
  match outcome m with
  | Ok a => Run (calls m ++ calls (k a)) (outcome (k a))
  | Raise e => Run (calls m) (Raise e)
  end.

(** Code that calls nothing outside. *)
Definition lift {A} (r : result A) : Py A := Run [] r.

Class Monad (M : Type -> Type) : Type :=
  { ret : forall {A}, A -> M A;
    bind : forall {A B}, M A -> (A -> M B) -> M B }.

#[export] Instance Monad_result : Monad result :=
  {| ret := @Ok; bind := @rbind |}.

#[export] Instance Monad_Py : Monad Py :=
  {| ret := fun A a => lift (Ok a); bind := @pbind |}.

Declare Scope py_scope.
Delimit Scope py_scope with py.
Notation "x <- m ;; k" := (bind m (fun x => k))
  (at level 61, m at next level, right associativity) : py_scope.

(** [try: body  except <the classes [handles] accepts>: handler] *)
Definition try_except {A} (body : result A) (handles : exception -> bool)
    (handler : exception -> result A) : result A :=
  match body with
  | Ok a => Ok a
  | Raise e => if handles e then handler e else Raise e
  end.

Definition try_except_py {A} (body : Py A) (handles : exception -> bool)
    (handler : exception -> A) : Py A :=
  match outcome body with
  | Ok a => body
  | Raise e => if handles e then Run (calls body) (Ok (handler e)) else body
  end.

(** [f(x) for x in xs], stopping at the first exception. *)
Fixpoint map_result {A B} (f : A -> result B) (xs : list A) : result (list B) :=
  match xs with
  | [] => Ok []
  | x :: xs' =>
      match f x with
      | Raise e => Raise e
      | Ok y =>
          match map_result f xs' with
          | Raise e => Raise e
          | Ok ys => Ok (y :: ys)
          end
      end
  end.

(** ** Operations on values *)

Definition quote (s : pystr) : pystr := py "'" ++ s ++ py "'".

(** [v.get(key, default)]: only a dict has the method. *)
Definition py_get (v : json) (key : pystr) (default : json) : result json :=
  match v with
  | JDict d =>
      Ok (match lookup key d with Some x => x | None => default end)
  | _ =>
      Raise (Exc AttributeError
               (quote (type_name v) ++ py " object has no attribute 'get'"))
  end.

(** [key in v] for a [str] key: a key of a dict, an element of a list, a
    substring of a string. *)
Definition py_in (key : pystr) (v : json) : result bool :=
  match v with
  | JDict d => Ok (match lookup key d with Some _ => true | None => false end)
  | JList l =>
      Ok (existsb (fun x => match x with JStr s => str_eqb key s | _ => false end) l)
  | JStr s => Ok (contains key s)
  | _ =>
      Raise (Exc TypeError
               (py "argument of type " ++ quote (type_name v)
                  ++ py " is not iterable"))
  end.

(** [list(v)]: the elements of a list, the keys of a dict, the characters
    of a string. *)
Definition py_iter (v : json) : result (list json) :=
  match v with
  | JList l => Ok l
  | JDict d => Ok (map (fun kv => JStr (fst kv)) d)
  | JStr s => Ok (map (fun c => JStr [c]) s)
  | _ => Raise (Exc TypeError (quote (type_name v) ++ py " object is not iterable"))
  end.

Definition unsupported (op : pystr) (a b : json) : exception :=
  Exc TypeError
    (py "unsupported operand type(s) for " ++ op ++ py ": "
       ++ quote (type_name a) ++ py " and " ++ quote (type_name b)).

(** [q // 2] *)
Definition py_floordiv2 (q : json) : result json :=
  match q with
  | JInt z => Ok (JInt (z / 2))
  | JBool b => Ok (JInt (Z.b2z b / 2))
  | JFloat f => Ok (JFloat (FFloorDiv f (FOfInt 2)))
  | _ => Raise (unsupported (py "//") q (JInt 2))
  end.

(** An [int] or [bool] as an integer. *)
Definition as_int (v : json) : option Z :=
  match v with
  | JInt z => Some z
  | JBool b => Some (Z.b2z b)
  | _ => None
  end.

(** [q - h] *)
Definition py_sub (q h : json) : result json :=
  match as_int q, as_int h, q, h with
  | Some a, Some b, _, _ => Ok (JInt (a - b))
  | Some a, None, _, JFloat y => Ok (JFloat (FSub (FOfInt a) y))
  | None, Some b, JFloat x, _ => Ok (JFloat (FSub x (FOfInt b)))
  | None, None, JFloat x, JFloat y => Ok (JFloat (FSub x y))
  | _, _, _, _ => Raise (unsupported (py "-") q h)
  end.

(* ================================================================== *)
(** * What the module takes from outside *)
(* ================================================================== *)

(** - [json_loads s] is [json.loads(s)];
    - [repr v] is Python's [repr(v)];
    - [messages_create prompt] is the text of the oracle's reply,
      [client.messages.create(model=..., max_tokens=500,
      system=SYSTEM_PROMPT, messages=[{"role": "user", "content":
      prompt}]).content[0].text], or the exception raised on the way.  The
      model name, the token bound and the system prompt are constants of
      the call site. *)
Class Runtime : Type :=
  { json_loads : pystr -> result json;
    repr : json -> pystr;
    messages_create : pystr -> result pystr }.

(** A decoder that fails with [json.JSONDecodeError], a [ValueError], and
    with nothing else.  This is [json.loads] as its grammar describes it;
    the interpreter adds its own limits, and CPython's [json.loads] raises
    [RecursionError] on a text whose arrays and objects are nested deeper
    than the interpreter allows ([Limited] below).  What is stated under
    this assumption therefore speaks of texts within those limits. *)
Definition decode_errors_are_ValueError (R : Runtime) : Prop :=
  forall s e, json_loads s = Raise e -> is_ValueError e = true.

(** The empty text does not decode, and a text whose first character is an
    opening brace decodes to a dict, if it decodes. *)
Definition objects_decode_to_dicts (R : Runtime) : Prop :=
  forall s v, json_loads s = Ok v ->
    s <> [] /\ (startswith (py "{") s = true -> exists d, v = JDict d).

(* ================================================================== *)
(** * The pipeline *)
(* ================================================================== *)

Inductive action : Type := PROPOSE | ACCEPT_OR_REJECT | UNKNOWN.

(** The string the source uses for the action type. *)
Definition action_name (a : action) : pystr :=
  match a with
  | PROPOSE => py "PROPOSE"
  | ACCEPT_OR_REJECT => py "ACCEPT_OR_REJECT"
  | UNKNOWN => py "UNKNOWN"
  end.

(** The loop of [parse_game_state] over [enumerate(message_text[start:],
    start)]: [cs] is what is left to read, [i] its index, [end_] the value
    [end] has when the loop is left without [break]. *)
Fixpoint scan_braces (cs : pystr) (i depth end_ : Z) : Z :=
  match cs with
  | [] => end_
  | c :: cs' =>
      if (c =? ch "{")%N then scan_braces cs' (i + 1) (depth + 1) end_
      else if (c =? ch "}")%N then
        let depth := depth - 1 in
        if depth =? 0 then i + 1
        else scan_braces cs' (i + 1) depth end_
      else scan_braces cs' (i + 1) depth end_
  end.

Section Pipeline.
Context {R : Runtime}.
Local Open Scope py_scope.

(** [str(v)], which an f-string applies to a formatted value. *)
Definition py_str (v : json) : pystr :=
  match v with
  | JStr s => s
  | _ => repr v
  end.

(** The value of [json_str] when the [try] block of [parse_game_state]
    reaches [json.loads]; [None] when it returns before. *)
Definition json_str (message_text : pystr) : option pystr :=
  if contains (py "```json") message_text then
    let start := find (py "```json") message_text + 7 in
    let end_ := find_from (py "```") message_text start in
    Some (strip (slice message_text start end_))
  else if contains (py "{") message_text then
    let start := find (py "{") message_text in
    let end_ := scan_braces (slice_from message_text start) start 0 start in
    Some (slice message_text start end_)
  else None.

Definition parse_game_state (message_text : pystr) : result json :=
  try_except
    (match json_str message_text with
     | Some json_str => json_loads json_str
     | None => Ok (JDict [])
     end)
    is_ValueError
    (fun _ => Ok (JDict [])).

Definition get_action_type (message_text : pystr) : action :=
  if contains (py "Action: PROPOSE") message_text then PROPOSE
  else if contains (py "Action: ACCEPT_OR_REJECT") message_text then ACCEPT_OR_REJECT
  else UNKNOWN.

(** The prompt [call_claude] builds before its [try] block. *)
Definition user_prompt (game_state : json) (action_type : action) : result pystr :=
  valuations <- py_get game_state (py "valuations_self") (JStr (py "unknown")) ;;
  batna <- py_get game_state (py "batna_self") (JStr (py "unknown")) ;;
  quantities <- py_get game_state (py "quantities") (JStr (py "unknown")) ;;
  discount <- py_get game_state (py "discount") (JFloat (FLit (py "0.98"))) ;;
  round <- py_get game_state (py "round") (JInt 1) ;;
  role <- py_get game_state (py "role") (JStr (py "unknown")) ;;
  let user_prompt :=
    py "Game State:" ++ newline
    ++ py "- Your valuations: " ++ py_str valuations ++ newline
    ++ py "- Your BATNA: " ++ py_str batna ++ newline
    ++ py "- Total quantities: " ++ py_str quantities ++ newline
    ++ py "- Discount factor: " ++ py_str discount ++ newline
    ++ py "- Current round: " ++ py_str round ++ newline
    ++ py "- Role: " ++ py_str role ++ newline
    ++ newline
    ++ py "Action Required: " ++ action_name action_type ++ newline in
  match action_type with
  | ACCEPT_OR_REJECT =>
      offer <- py_get game_state (py "current_offer") (JDict []) ;;
      allocation_self <- py_get offer (py "allocation_self") (JStr (py "unknown")) ;;
      allocation_other <- py_get offer (py "allocation_other") (JStr (py "unknown")) ;;
      ret (user_prompt
           ++ newline
           ++ py "Current Offer to You: " ++ py_str allocation_self ++ newline
           ++ py "Their Allocation: " ++ py_str allocation_other ++ newline
           ++ newline
           ++ py "Calculate the value of this offer based on your valuations and compare to your BATNA."
           ++ newline
           ++ py "Should you accept this offer?" ++ newline)
  | _ =>
      ret (user_prompt
           ++ newline
           ++ py "Make a strategic proposal. Consider:" ++ newline
           ++ py "1. What allocation gives you good value while being acceptable to the other party?"
           ++ newline
           ++ py "2. Remember they have different valuations than you." ++ newline
           ++ py "3. A rejected offer means another round with discounting." ++ newline
           ++ newline
           ++ py "Propose an allocation." ++ newline)
  end.

(** The oracle call, logged. *)
Definition ask (prompt : pystr) : Py pystr :=
  Run [prompt] (messages_create prompt).

(** The body of the [try] block of [call_claude]. *)
Definition ask_and_parse (prompt : pystr) : Py json :=
  reply <- ask prompt ;;
  let response_text := strip reply in
  if startswith (py "{") response_text then
    lift (json_loads response_text)
  else if contains (py "{") response_text then
    let start := find (py "{") response_text in
    let end_ := rfind (py "}") response_text + 1 in
    lift (json_loads (slice response_text start end_))
  else
    ret (JDict [(py "error", JStr (py "Could not parse Claude response"));
                (py "raw", JStr response_text)]).

Definition call_claude (game_state : json) (action_type : action)
    (message_text : pystr) : Py json :=
  prompt <- lift (user_prompt game_state action_type) ;;
  try_except_py (ask_and_parse prompt)
    (fun _ => true)
    (fun e => JDict [(py "error", JStr (exc_str e))]).

Definition handle_negotiation_message (message_text : pystr) : Py json :=
  let action_type := get_action_type message_text in
  game_state <- lift (parse_game_state message_text) ;;
  match action_type with
  | UNKNOWN =>
      ret (JDict [(py "error", JStr (py "Unknown action type"));
                  (py "action", JStr (py "WALK"))])
  | _ =>
      result <- call_claude game_state action_type message_text ;;
      has_error <- lift (py_in (py "error") result) ;;
      if has_error : bool then
        match action_type with
        | PROPOSE =>
            quantities <- lift (py_get game_state (py "quantities")
                                  (JList [JInt 1; JInt 1; JInt 1])) ;;
            qs <- lift (py_iter quantities) ;;
            half <- lift (map_result py_floordiv2 qs) ;;
            other <- lift (map_result (fun qh => py_sub (fst qh) (snd qh))
                             (combine qs half)) ;;
            error <- lift (py_get result (py "error") (JStr (py "unknown"))) ;;
            ret (JDict [(py "allocation_self", JList half);
                        (py "allocation_other", JList other);
                        (py "reason",
                         JStr (py "Fallback proposal due to error: " ++ py_str error))])
        | _ =>
            error <- lift (py_get result (py "error") (JStr (py "unknown"))) ;;
            ret (JDict [(py "accept", JBool false);
                        (py "reason",
                         JStr (py "Fallback rejection due to error: " ++ py_str error))])
        end
      else ret result
  end.

End Pipeline.

(* ================================================================== *)
(** * A decoder for [json.loads] *)
(* ================================================================== *)

(** The decoder of CPython's [json] package ([json.decoder],
    [json.scanner] and their C counterparts) with its default settings:
    the grammar of RFC 8259 with the whitespace [" \t\n\r"], the strict
    string scanner, and the constants [NaN], [Infinity], [-Infinity].  An
    [int] is decoded exactly, a [float] is kept as its literal, and a key
    that occurs twice keeps its first place and its last value.  [None]
    stands for [json.JSONDecodeError].  The interpreter's limits
    (recursion depth, digits of an integer literal) are not part of it;
    [Limited] below adds the first. *)
Module Decoder.

Definition is_ws (c : char) : bool :=
  ((c =? ch " ") || (c =? 9) || (c =? 10) || (c =? 13))%N.

Fixpoint skip_ws (s : pystr) : pystr :=
  match s with
  | c :: s' => if is_ws c then skip_ws s' else s
  | [] => []
  end.

Definition is_digit (c : char) : bool := ((ch "0" <=? c) && (c <=? ch "9"))%N.

(** The longest run of digits at the head of [s], and what follows it. *)
Fixpoint digits (s : pystr) : pystr * pystr :=
  match s with
  | c :: s' =>
      if is_digit c then let (ds, r) := digits s' in (c :: ds, r) else ([], s)
  | [] => ([], [])
  end.

Definition int_of_digits (ds : pystr) : Z :=
  fold_left (fun acc c => 10 * acc + (Z.of_N c - Z.of_N (ch "0"))) ds 0.

(** A number at the head of [s]: an optional minus sign, then a zero or a
    run of digits that does not start with one, then an optional fraction
    (a dot and digits), then an optional exponent (e or E, an optional
    sign, digits). *)
Definition match_number (s : pystr) : option (json * pystr) :=
  let (sign, s1) :=
    match s with
    | c :: t => if (c =? ch "-")%N then ([c], t) else ([], s)
    | [] => ([], s)
    end in
  let integer :=
    match s1 with
    | c :: t =>
        if (c =? ch "0")%N then Some ([c], t)
        else if is_digit c then let (ds, r) := digits t in Some (c :: ds, r)
        else None
    | [] => None
    end in
  match integer with
  | None => None
  | Some (int_part, r) =>
      let (frac, r1) :=
        match r with
        | p :: d :: t =>
            if (p =? ch ".")%N && is_digit d
            then let (ds, r') := digits t in (p :: d :: ds, r')
            else ([], r)
        | _ => ([], r)
        end in
      let (exp, r2) :=
        match r1 with
        | e :: t =>
            if ((e =? ch "e") || (e =? ch "E"))%N then
              let (sg, t1) :=
                match t with
                | c :: t' =>
                    if ((c =? ch "+") || (c =? ch "-"))%N then ([c], t') else ([], t)
                | [] => ([], t)
                end in
              match digits t1 with
              | ([], _) => ([], r1)
              | (ds, r') => (e :: sg ++ ds, r')
              end
            else ([], r1)
        | [] => ([], r1)
        end in
      match frac, exp with
      | [], [] =>
          let n := int_of_digits int_part in
          Some (JInt (match sign with [] => n | _ => - n end), r2)
      | _, _ => Some (JFloat (FLit (sign ++ int_part ++ frac ++ exp)), r2)
      end
  end.

Definition hex_digit (c : char) : option N :=
  (if (ch "0" <=? c) && (c <=? ch "9") then Some (c - ch "0")
   else if (ch "a" <=? c) && (c <=? ch "f") then Some (c - ch "a" + 10)
   else if (ch "A" <=? c) && (c <=? ch "F") then Some (c - ch "A" + 10)
   else None)%N.

Definition hex4 (a b c d : char) : option N :=
  match hex_digit a, hex_digit b, hex_digit c, hex_digit d with
  | Some x, Some y, Some z, Some w => Some (((x * 16 + y) * 16 + z) * 16 + w)%N
  | _, _, _, _ => None
  end.

Definition is_high_surrogate (c : N) : bool := ((55296 <=? c) && (c <=? 56319))%N.
Definition is_low_surrogate (c : N) : bool := ((56320 <=? c) && (c <=? 57343))%N.
Definition join_surrogates (hi lo : N) : N :=
  (65536 + ((hi - 55296) * 1024 + (lo - 56320)))%N.

Definition simple_escape (c : char) : option char :=
  (if c =? dquote then Some dquote
   else if c =? ch "\" then Some (ch "\")
   else if c =? ch "/" then Some (ch "/")
   else if c =? ch "b" then Some 8
   else if c =? ch "f" then Some 12
   else if c =? ch "n" then Some 10
   else if c =? ch "r" then Some 13
   else if c =? ch "t" then Some 9
   else None)%N.

(** The contents of a string literal whose opening quote has been read,
    and what follows its closing quote. *)
Fixpoint scan_string (s : pystr) : option (pystr * pystr) :=
  match s with
  | [] => None
  | c :: t =>
      if (c =? dquote)%N then Some ([], t)
      else if (c =? ch "\")%N then
        match t with
        | [] => None
        | e :: t1 =>
            if (e =? ch "u")%N then
              match t1 with
              | a :: b :: c1 :: d :: t2 =>
                  match hex4 a b c1 d with
                  | None => None
                  | Some hi =>
                      let single :=
                        match scan_string t2 with
                        | Some (r, rest) => Some (hi :: r, rest)
                        | None => None
                        end in
                      match t2 with
                      | bs :: u :: a' :: b' :: c' :: d' :: t3 =>
                          if is_high_surrogate hi && (bs =? ch "\")%N && (u =? ch "u")%N
                          then match hex4 a' b' c' d' with
                               | None => None
                               | Some lo =>
                                   if is_low_surrogate lo then
                                     match scan_string t3 with
                                     | Some (r, rest) =>
                                         Some (join_surrogates hi lo :: r, rest)
                                     | None => None
                                     end
                                   else single
                               end
                          else single
                      | _ => single
                      end
                  end
              | _ => None
              end
            else
              match simple_escape e with
              | None => None
              | Some x =>
                  match scan_string t1 with
                  | Some (r, rest) => Some (x :: r, rest)
                  | None => None
                  end
              end
        end
      else if (c <=? 31)%N then None
      else
        match scan_string t with
        | Some (r, rest) => Some (c :: r, rest)
        | None => None
        end
  end.

(** The members of an object from a key on, up to its closing brace. *)
Fixpoint members (scan : pystr -> option (json * pystr)) (fuel : nat)
    (s : pystr) (acc : pydict) : option (pydict * pystr) :=
  match fuel, s with
  | S fuel, q :: t =>
      if (q =? dquote)%N then
        match scan_string t with
        | None => None
        | Some (key, r) =>
            match skip_ws r with
            | c :: r1 =>
                if (c =? ch ":")%N then
                  match scan (skip_ws r1) with
                  | None => None
                  | Some (v, r2) =>
                      let acc := dict_set key v acc in
                      match skip_ws r2 with
                      | c2 :: r3 =>
                          if (c2 =? ch "}")%N then Some (acc, r3)
                          else if (c2 =? ch ",")%N
                               then members scan fuel (skip_ws r3) acc
                               else None
                      | [] => None
                      end
                  end
                else None
            | [] => None
            end
        end
      else None
  | _, _ => None
  end.

(** The elements of an array from a value on, up to its closing bracket. *)
Fixpoint elements (scan : pystr -> option (json * pystr)) (fuel : nat)
    (s : pystr) (acc : list json) : option (list json * pystr) :=
  match fuel with
  | O => None
  | S fuel =>
      match scan s with
      | None => None
      | Some (v, r) =>
          match skip_ws r with
          | c :: r1 =>
              if (c =? ch "]")%N then Some (rev (v :: acc), r1)
              else if (c =? ch ",")%N
                   then elements scan fuel (skip_ws r1) (v :: acc)
                   else None
          | [] => None
          end
      end
  end.

Definition after (word s : pystr) : pystr := skipn (List.length word) s.

(** One JSON value at the head of [s], and what follows it. *)
Fixpoint scan_once (fuel : nat) (s : pystr) : option (json * pystr) :=
  match fuel, s with
  | S fuel, c :: t =>
      if (c =? dquote)%N then
        match scan_string t with
        | Some (str, r) => Some (JStr str, r)
        | None => None
        end
      else if (c =? ch "{")%N then
        match skip_ws t with
        | c' :: t' =>
            if (c' =? ch "}")%N then Some (JDict [], t')
            else match members (scan_once fuel) fuel (c' :: t') [] with
                 | Some (d, r) => Some (JDict d, r)
                 | None => None
                 end
        | [] => None
        end
      else if (c =? ch "[")%N then
        match skip_ws t with
        | c' :: t' =>
            if (c' =? ch "]")%N then Some (JList [], t')
            else match elements (scan_once fuel) fuel (c' :: t') [] with
                 | Some (l, r) => Some (JList l, r)
                 | None => None
                 end
        | [] => None
        end
      else if startswith (py "null") s then Some (JNull, after (py "null") s)
      else if startswith (py "true") s then Some (JBool true, after (py "true") s)
      else if startswith (py "false") s then Some (JBool false, after (py "false") s)
      else if startswith (py "NaN") s
           then Some (JFloat (FLit (py "NaN")), after (py "NaN") s)
      else if startswith (py "Infinity") s
           then Some (JFloat (FLit (py "Infinity")), after (py "Infinity") s)
      else if startswith (py "-Infinity") s
           then Some (JFloat (FLit (py "-Infinity")), after (py "-Infinity") s)
      else match_number s
  | _, _ => None
  end.

(** The whole text is one value between optional whitespace. *)
Definition decode (s : pystr) : option json :=
  if startswith [65279%N] s then None
  else
    match scan_once (S (List.length s)) (skip_ws s) with
    | Some (v, r) => match skip_ws r with [] => Some v | _ :: _ => None end
    | None => None
    end.

End Decoder.

(* ================================================================== *)
(** * An instance of the runtime *)
(* ================================================================== *)

(** [repr] for the values met in the examples: exact on [None], booleans,
    integers, floats written in their shortest form, strings of printable
    ASCII characters, and lists and dicts of these. *)
Module Repr.

Definition digit_char (d : Z) : char := (ch "0" + Z.to_N d)%N.

Fixpoint decimal (fuel : nat) (n : Z) (acc : pystr) : pystr :=
  match fuel with
  | O => acc
  | S fuel =>
      if n <? 10 then digit_char n :: acc
      else decimal fuel (n / 10) (digit_char (n mod 10) :: acc)
  end.

Definition repr_int (z : Z) : pystr :=
  if z <? 0 then ch "-" :: decimal (Z.to_nat (Z.log2 (- z) + 1)) (- z) []
  else decimal (Z.to_nat (Z.log2 z + 1)) z [].

Fixpoint repr_float (f : pyfloat) : pystr :=
  match f with
  | FLit l => l
  | FOfInt z => repr_int z ++ py ".0"
  | FFloorDiv x y => py "(" ++ repr_float x ++ py " // " ++ repr_float y ++ py ")"
  | FSub x y => py "(" ++ repr_float x ++ py " - " ++ repr_float y ++ py ")"
  end.

Definition repr_char (quote_char c : char) : pystr :=
  (if (c =? quote_char) || (c =? ch "\") then [ch "\"; c]
   else if c =? 10 then py "\n"
   else if c =? 13 then py "\r"
   else if c =? 9 then py "\t"
   else [c])%N.

Definition repr_str (s : pystr) : pystr :=
  let q := if contains (py "'") s && negb (contains [dquote] s)
           then dquote else ch "'" in
  q :: flat_map (repr_char q) s ++ [q].

Definition join (sep : pystr) (parts : list pystr) : pystr :=
  match parts with
  | [] => []
  | p :: ps => p ++ flat_map (fun x => sep ++ x) ps
  end.

Fixpoint repr (v : json) : pystr :=
  match v with
  | JNull => py "None"
  | JBool true => py "True"
  | JBool false => py "False"
  | JInt z => repr_int z
  | JFloat f => repr_float f
  | JStr s => repr_str s
  | JList l => py "[" ++ join (py ", ") (map repr l) ++ py "]"
  | JDict d =>
      py "{"
      ++ join (py ", ") (map (fun kv => repr_str (fst kv) ++ py ": " ++ repr (snd kv)) d)
      ++ py "}"
  end.

End Repr.

(** [json.loads] as decoded above, without the interpreter's limits.  The
    text of a real decoding error also names the place of the error;
    nothing below depends on it. *)
Definition decode_error : exception :=
  Exc JSONDecodeError (py "Expecting value").

Definition cpython_json_loads (s : pystr) : result json :=
  match Decoder.decode s with
  | Some v => Ok v
  | None => Raise decode_error
  end.

(** The runtime in which the oracle behaves as [oracle] says. *)
Definition cpython (oracle : pystr -> result pystr) : Runtime :=
  {| json_loads := cpython_json_loads;
     repr := Repr.repr;
     messages_create := oracle |}.

(** An oracle that cannot be reached, and one that replies [text]. *)
Definition unreachable : pystr -> result pystr :=
  fun _ => Raise (Exc OtherException (py "Connection error.")).

Definition replies (text : pystr) : pystr -> result pystr :=
  fun _ => Ok text.

(* ================================================================== *)
(** * The decoder under the interpreter's recursion limit *)
(* ================================================================== *)

(** CPython's scanner enters a recursive call for every array and object
    it opens ([Py_EnterRecursiveCall] in [scan_once_unicode]) and raises
    [RecursionError] when the interpreter's limit is reached.  [Limited]
    is the decoder above with that check: [depth] is the number of arrays
    and objects that may still be opened one inside the other. *)
Module Limited.

Inductive scanned (A : Type) : Type :=
| Value (a : A) (rest : pystr)
| Invalid
| TooDeep (container : pystr).
Arguments Value {A} a rest.
Arguments Invalid {A}.
Arguments TooDeep {A} container.

(** The members of an object from a key on, up to its closing brace. *)
Fixpoint members (scan : pystr -> scanned json) (fuel : nat)
    (s : pystr) (acc : pydict) : scanned pydict :=
  match fuel, s with
  | S fuel, q :: t =>
      if (q =? dquote)%N then
        match Decoder.scan_string t with
        | None => Invalid
        | Some (key, r) =>
            match Decoder.skip_ws r with
            | c :: r1 =>
                if (c =? ch ":")%N then
                  match scan (Decoder.skip_ws r1) with
                  | Invalid => Invalid
                  | TooDeep container => TooDeep container
                  | Value v r2 =>
                      let acc := dict_set key v acc in
                      match Decoder.skip_ws r2 with
                      | c2 :: r3 =>
                          if (c2 =? ch "}")%N then Value acc r3
                          else if (c2 =? ch ",")%N
                               then members scan fuel (Decoder.skip_ws r3) acc
                               else Invalid
                      | [] => Invalid
                      end
                  end
                else Invalid
            | [] => Invalid
            end
        end
      else Invalid
  | _, _ => Invalid
  end.

(** The elements of an array from a value on, up to its closing bracket. *)
Fixpoint elements (scan : pystr -> scanned json) (fuel : nat)
    (s : pystr) (acc : list json) : scanned (list json) :=
  match fuel with
  | O => Invalid
  | S fuel =>
      match scan s with
      | Invalid => Invalid
      | TooDeep container => TooDeep container
      | Value v r =>
          match Decoder.skip_ws r with
          | c :: r1 =>
              if (c =? ch "]")%N then Value (rev (v :: acc)) r1
              else if (c =? ch ",")%N
                   then elements scan fuel (Decoder.skip_ws r1) (v :: acc)
                   else Invalid
          | [] => Invalid
          end
      end
  end.

Definition of_option {A} (o : option (A * pystr)) : scanned A :=
  match o with
  | Some (a, rest) => Value a rest
  | None => Invalid
  end.

(** One JSON value at the head of [s], and what follows it. *)
Fixpoint scan_once (fuel depth : nat) (s : pystr) : scanned json :=
  match fuel, s with
  | S fuel, c :: t =>
      if (c =? dquote)%N then
        match Decoder.scan_string t with
        | Some (str, r) => Value (JStr str) r
        | None => Invalid
        end
      else if (c =? ch "{")%N then
        match depth with
        | O => TooDeep (py "object")
        | S depth =>
            match Decoder.skip_ws t with
            | c' :: t' =>
                if (c' =? ch "}")%N then Value (JDict []) t'
                else match members (scan_once fuel depth) fuel (c' :: t') [] with
                     | Value d r => Value (JDict d) r
                     | Invalid => Invalid
                     | TooDeep container => TooDeep container
                     end
            | [] => Invalid
            end
        end
      else if (c =? ch "[")%N then
        match depth with
        | O => TooDeep (py "array")
        | S depth =>
            match Decoder.skip_ws t with
            | c' :: t' =>
                if (c' =? ch "]")%N then Value (JList []) t'
                else match elements (scan_once fuel depth) fuel (c' :: t') [] with
                     | Value l r => Value (JList l) r
                     | Invalid => Invalid
                     | TooDeep container => TooDeep container
                     end
            | [] => Invalid
            end
        end
      else of_option (Decoder.scan_once (S fuel) s)
  | _, _ => Invalid
  end.

(** [str(e)] of the [RecursionError] of the scanner. *)
Definition recursion_error (container : pystr) : exception :=
  Exc RecursionError
    (py "maximum recursion depth exceeded while decoding a JSON "
       ++ container ++ py " from a unicode string").

(** The whole text is one value between optional whitespace. *)
Definition decode (limit : nat) (s : pystr) : result json :=
  if startswith [65279%N] s then Raise decode_error
  else
    match scan_once (S (List.length s)) limit (Decoder.skip_ws s) with
    | Value v r =>
        match Decoder.skip_ws r with
        | [] => Ok v
        | _ :: _ => Raise decode_error
        end
    | Invalid => Raise decode_error
    | TooDeep container => Raise (recursion_error container)
    end.

(** What a scan under the limit says of the scan without it: the same,
    unless it gave up. *)
Definition agrees {A} (l : scanned A) (o : option (A * pystr)) : Prop :=
  match l with
  | Value a rest => o = Some (a, rest)
  | Invalid => o = None
  | TooDeep _ => True
  end.

(** The scan did not give up. *)
Definition within {A} (l : scanned A) : Prop :=
  match l with
  | TooDeep _ => False
  | _ => True
  end.

End Limited.

(** The runtime whose decoder stops at [limit] levels of nesting. *)
Definition cpython_limited (limit : nat) (oracle : pystr -> result pystr)
    : Runtime :=
  {| json_loads := Limited.decode limit;
     repr := Repr.repr;
     messages_create := oracle |}.


(* ================================================================== *)
(** * The vocabulary of the specification *)
(* ================================================================== *)

(** [sub] occurs in [s]. *)
Definition occurs (sub s : pystr) : Prop := exists a b, s = a ++ sub ++ b.

(** The decision for an unrecognised action. *)
Definition unknown_action_decision : json :=
  JDict [(py "error", JStr (py "Unknown action type"));
         (py "action", JStr (py "WALK"))].

(** A decision has the field [k]. *)
Definition has_field (k : pystr) (decision : json) : bool :=
  match decision with
  | JDict d => match lookup k d with Some _ => true | None => false end
  | _ => false
  end.

(** The field shape the specification requires of a decision for each
    action type. *)
Definition structurally_valid (a : action) (decision : json) : Prop :=
  match a with
  | PROPOSE =>
      has_field (py "allocation_self") decision = true
      /\ has_field (py "allocation_other") decision = true
      /\ has_field (py "reason") decision = true
  | ACCEPT_OR_REJECT =>
      has_field (py "accept") decision = true
      /\ has_field (py "reason") decision = true
  | UNKNOWN => decision = unknown_action_decision
  end.

(** The fallback decisions. *)
Definition fallback_proposal (half other : list json) (cause : pystr) : json :=
  JDict [(py "allocation_self", JList half);
         (py "allocation_other", JList other);
         (py "reason", JStr (py "Fallback proposal due to error: " ++ cause))].

Definition fallback_verdict (cause : pystr) : json :=
  JDict [(py "accept", JBool false);
         (py "reason", JStr (py "Fallback rejection due to error: " ++ cause))].

(** The failure descriptor of [call_claude] for a raised exception. *)
Definition failure_descriptor (e : exception) : json :=
  JDict [(py "error", JStr (exc_str e))].

(** A decoded value, or the failure descriptor of the decoding error. *)
Definition or_failure (r : result json) : json :=
  match r with
  | Ok v => v
  | Raise e => failure_descriptor e
  end.

(** A decoded value, or the empty state when decoding fails with an error
    that [parse_game_state] handles. *)
Definition or_empty_state (r : result json) : result json :=
  match r with
  | Ok v => Ok v
  | Raise e => if is_ValueError e then Ok (JDict []) else Raise e
  end.

(** The nesting depth a text adds: one up for an opening brace, one down
    for a closing brace. *)
Definition depth_change (c : char) : Z :=
  if (c =? ch "{")%N then 1 else if (c =? ch "}")%N then -1 else 0.

Fixpoint net_depth (s : pystr) : Z :=
  match s with
  | [] => 0
  | c :: s' => depth_change c + net_depth s'
  end.

(** A brace-delimited object: it opens with a brace, and its nesting depth
    returns to zero at its last character and not before. *)
Definition balanced_object (obj : pystr) : Prop :=
  (exists rest, obj = ch "{" :: rest)
  /\ net_depth obj = 0
  /\ forall k, (0 < k < List.length obj)%nat -> 0 < net_depth (firstn k obj).

(** A game state on which the code of an action cannot fail: a dict; when
    an offer is answered, its [current_offer] (if any) is a dict; when a
    proposal is made, its [quantities] (if any) is a list of numbers. *)
Definition is_number (v : json) : bool :=
  match v with
  | JInt _ | JBool _ | JFloat _ => true
  | _ => false
  end.

Definition state_fits (a : action) (game_state : json) : bool :=
  match a, game_state with
  | UNKNOWN, _ => true
  | ACCEPT_OR_REJECT, JDict d =>
      match lookup (py "current_offer") d with
      | None | Some (JDict _) => true
      | Some _ => false
      end
  | PROPOSE, JDict d =>
      match lookup (py "quantities") d with
      | None => true
      | Some (JList l) => forallb is_number l
      | Some _ => false
      end
  | _, _ => false
  end.

(** What [handle_negotiation_message] returns for an action, given the
    result of [call_claude]: the error decision, a fallback decision, or
    the oracle's decoded object as it is, which has no [error] field. *)
Definition decision_shape (a : action) (oracle_result decision : json) : Prop :=
  let passed_through :=
    decision = oracle_result
    /\ exists d, decision = JDict d /\ lookup (py "error") d = None in
  match a with
  | UNKNOWN => decision = unknown_action_decision
  | PROPOSE =>
      (exists half other cause, decision = fallback_proposal half other cause)
      \/ passed_through
  | ACCEPT_OR_REJECT =>
      (exists cause, decision = fallback_verdict cause) \/ passed_through
  end.

(** ** Messages, replies and runtimes of the scenarios and examples *)

Definition oracle_down : Runtime := cpython unreachable.

Definition oracle_says (text : pystr) : Runtime := cpython (replies text).





(** The prompt the handler builds for a message. *)
Definition prompt_for (R : Runtime) (message_text : pystr) : pystr :=
  match parse_game_state message_text with
  | Ok game_state =>
      match user_prompt game_state (get_action_type message_text) with
      | Ok prompt => prompt
      | Raise _ => []
      end
  | Raise _ => []
  end.

(** Scenario A: a proposal is requested for the quantities 3 and 5. *)
Definition scenario_A : pystr :=
  pyj "Action: PROPOSE {'quantities': [3, 5]}".

Definition scenario_A_state : pydict :=
  [(py "quantities", JList [JInt 3; JInt 5])].

(** Scenario B: an offer in a labeled fenced block, followed by another
    object, and the oracle's reply. *)
Definition scenario_B_pre : pystr := py "Action: ACCEPT_OR_REJECT ".

Definition scenario_B_body : pystr :=
  pyj " {'current_offer': {'allocation_self': [2, 1], 'allocation_other': [1, 4]}} ".

Definition scenario_B_post : pystr := pyj " see also {'round': 3}".

Definition scenario_B : pystr :=
  scenario_B_pre ++ py "```json" ++ scenario_B_body ++ py "```" ++ scenario_B_post.

Definition scenario_B_state : json :=
  JDict [(py "current_offer",
          JDict [(py "allocation_self", JList [JInt 2; JInt 1]);
                 (py "allocation_other", JList [JInt 1; JInt 4])])].

Definition scenario_B_reply : pystr :=
  pyj "{'accept': true, 'reason': 'good value'}".

(** Scenario C: no action marker. *)
Definition scenario_C : pystr := py "Hello, shall we trade?".

(** Scenario D: the oracle wraps its object in prose. *)
Definition scenario_D_reply : pystr :=
  pyj "Sure, here you go: {'accept': false, 'reason': 'low value'} Thanks!".

(** Both markers in one message. *)
Definition both_markers : pystr :=
  py "Action: ACCEPT_OR_REJECT the offer, else Action: PROPOSE".

(** An offer that is a number, and quantities that are a number. *)
Definition offer_is_a_number : pystr :=
  pyj "Action: ACCEPT_OR_REJECT {'current_offer': 5}".

Definition quantities_is_a_number : pystr :=
  pyj "Action: PROPOSE {'quantities': 5}".

(** An object, a text with a closing brace and one with an opening brace
    to put before it, and a text to put after it. *)
Definition small_object : pystr := pyj "{'x': {'y': 1}}".
Definition with_closing_brace : pystr := py "see } here: ".
Definition trailing_text : pystr := py " and } more {".

(** ** Further vocabulary for the behaviour of the pipeline *)

(** The game states for which [call_claude] can build its prompt: a dict
    and, when an offer is answered, one whose [current_offer] (if any) is a
    dict. *)
Definition prompt_builds (a : action) (game_state : json) : bool :=
  match game_state with
  | JDict d =>
      match a with
      | ACCEPT_OR_REJECT =>
          match lookup (py "current_offer") d with
          | None | Some (JDict _) => true
          | Some _ => false
          end
      | _ => true
      end
  | _ => false
  end.

(** The values of [quantities] that the even split of the fallback
    accepts: a list of numbers, and the two empty iterables that are not
    lists. *)
Definition splittable (quantities : json) : bool :=
  match quantities with
  | JList l => forallb is_number l
  | JStr [] => true
  | JDict [] => true
  | _ => false
  end.

(** A text that opens a brace it never closes: the depth stays positive
    after every character. *)
Definition never_closes (rest : pystr) : Prop :=
  (exists r, rest = ch "{" :: r)
  /\ forall k, (0 < k <= List.length rest)%nat -> 0 < net_depth (firstn k rest).

(** More messages for the examples. *)
Definition proposal_without_state : pystr := py "Action: PROPOSE now".

Definition unclosed_fence_pre : pystr := py "Action: PROPOSE ".
Definition unclosed_fence_body : pystr := pyj " {'quantities': [3, 5]".
Definition unclosed_fence : pystr :=
  unclosed_fence_pre ++ py "```json" ++ unclosed_fence_body ++ py "}".

Definition braces_out_of_order : pystr := py "done } and then {".

Definition state_with_number_offer : json :=
  JDict [(py "current_offer", JInt 5)].

Definition unclosed_brace_rest : pystr := py "{ here: " ++ small_object.

(* ================================================================== *)
(** * The A2A executor ([LLMNegotiatorExecutor.execute], [src/main.py]) *)
(* ================================================================== *)

(** The task [new_task] creates, as far as [execute] reads it. *)
Record task : Type := Task { task_id : pystr; task_context_id : pystr }.

(** What [execute] takes from the A2A framework and from [json] for one
    request:
    - [get_user_input] is [context.get_user_input()];
    - [has_message] says that [context.message] is not [None];
    - [new_task] is [new_task(msg)];
    - [enqueue_event t] is [await event_queue.enqueue_event(t)];
    - [update_status t text] is [await updater.update_status(
      TaskState.completed, new_agent_text_message(text, context_id=...))]
      for the updater of task [t];
    - [json_dumps_indent v] is [json.dumps(v, indent=2)] and [json_dumps v]
      is [json.dumps(v)], which return for every value of [json].
    Building the [TaskUpdater] and logging do not raise. *)
Class Server : Type :=
  { get_user_input : result pystr;
    has_message : bool;
    new_task : result task;
    enqueue_event : task -> result unit;
    update_status : task -> pystr -> result unit;
    json_dumps_indent : json -> pystr;
    json_dumps : json -> pystr }.

(** What a run of [execute] does outside itself, in order: a prompt sent to
    the oracle, a task put on the event queue, a final status with its
    text.  An event is listed when the call that sends it returned. *)
Inductive effect : Type :=
| Asked (prompt : pystr)
| Enqueued (t : task)
| Completed (t : task) (text : pystr).

Record Exec (A : Type) : Type := Did { effects : list effect; returned : result A }.
Arguments Did {A} effects returned.
Arguments effects {A} e.
Arguments returned {A} e.

(** The effects of [first], then those of [second]. *)
Definition after_effects {A} (first : list effect) (second : Exec A) : Exec A :=
  Did (first ++ effects second) (returned second).

(** A call into the pipeline. *)
Definition of_py {A} (p : Py A) : Exec A := Did (map Asked (calls p)) (outcome p).

(** A call that has no effect of its own. *)
Definition quietly {A} (r : result A) : Exec A := Did [] r.

Section Executor.
Context {R : Runtime} {S : Server}.

Definition enqueue (t : task) : Exec unit :=
  Did (match enqueue_event t with Ok _ => [Enqueued t] | Raise _ => [] end)
      (enqueue_event t).

Definition send_status (t : task) (text : pystr) : Exec unit :=
  Did (match update_status t text with Ok _ => [Completed t text] | Raise _ => [] end)
      (update_status t text).

(** The [except Exception as e] clause; [updater] is the task of the
    updater when ['updater' in locals()]. *)
Definition on_exception (updater : option task) (e : exception) : Exec unit :=
  let error_response :=
    JDict [(py "error", JStr (exc_str e)); (py "action", JStr (py "WALK"))] in
  match updater with
  | Some t => send_status t (json_dumps error_response)
  | None => quietly (Ok tt)
  end.

(** One statement of the [try] block, followed by the rest of the block:
    an exception of the statement goes to the [except] clause. *)
Definition guarded {A} (updater : option task) (statement : Exec A)
    (rest : A -> Exec unit) : Exec unit :=
  after_effects (effects statement)
    (match returned statement with
     | Ok a => rest a
     | Raise e => on_exception updater e
     end).

Definition execute : Exec unit :=
  guarded None (quietly get_user_input) (fun message_text =>
  if has_message then
    guarded None (quietly new_task) (fun t =>
    guarded None (enqueue t) (fun _ =>
    (* updater = TaskUpdater(event_queue, task.id, task.context_id) *)
    guarded (Some t) (of_py (handle_negotiation_message message_text))
      (fun response =>
    let response_text := json_dumps_indent response in
    guarded (Some t) (send_status t response_text) (fun _ =>
    quietly (Ok tt)))))
  else
    guarded None (of_py (handle_negotiation_message message_text))
      (fun response =>
    (* response_text is logged, not sent *)
    quietly (Ok tt))).

End Executor.

(** How many of the effects are final statuses, and how many are oracle
    calls. *)
Definition is_completed (x : effect) : bool :=
  match x with Completed _ _ => true | _ => false end.

Definition is_asked (x : effect) : bool :=
  match x with Asked _ => true | _ => false end.

Definition count (p : effect -> bool) (l : list effect) : nat :=
  List.length (filter p l).

(** [json.dumps] for the examples, with its default settings
    ([ensure_ascii], separators [", "] and [": "], or one item per line
    under [indent=2]); a float is written as [Repr.repr_float] writes
    it. *)
Module Dumps.

Definition hex_char (d : N) : char :=
  (if d <? 10 then ch "0" + d else ch "a" + (d - 10))%N.

Definition hex4 (c : N) : pystr :=
  [hex_char (c / 4096 mod 16); hex_char (c / 256 mod 16);
   hex_char (c / 16 mod 16); hex_char (c mod 16)]%N.

Definition escape (c : char) : pystr :=
  (if c =? dquote then [ch "\"; dquote]
   else if c =? ch "\" then [ch "\"; ch "\"]
   else if c =? 10 then py "\n"
   else if c =? 13 then py "\r"
   else if c =? 9 then py "\t"
   else if c =? 8 then py "\b"
   else if c =? 12 then py "\f"
   else if (32 <=? c) && (c <=? 126) then [c]
   else if c <? 65536 then py "\u" ++ hex4 c
   else py "\u" ++ hex4 (55296 + (c - 65536) / 1024)
        ++ py "\u" ++ hex4 (56320 + (c - 65536) mod 1024))%N.

Definition dumps_str (s : pystr) : pystr :=
  dquote :: flat_map escape s ++ [dquote].

Definition spaces (n : nat) : pystr := repeat (ch " ") n.

(** With [indent = None] everything is on one line; with [indent = Some k]
    the items of a non-empty container are on lines of their own, [k]
    spaces deeper than the container. *)
Fixpoint dumps_at (indent : option nat) (level : nat) (v : json) : pystr :=
  let open_ := match indent with
               | Some k => newline ++ spaces (k * S level)
               | None => []
               end in
  let close := match indent with
               | Some k => newline ++ spaces (k * level)
               | None => []
               end in
  let sep := match indent with
             | Some k => py "," ++ newline ++ spaces (k * S level)
             | None => py ", "
             end in
  match v with
  | JNull => py "null"
  | JBool true => py "true"
  | JBool false => py "false"
  | JInt z => Repr.repr_int z
  | JFloat f => Repr.repr_float f
  | JStr s => dumps_str s
  | JList [] => py "[]"
  | JList l =>
      py "[" ++ open_ ++ Repr.join sep (map (dumps_at indent (S level)) l)
      ++ close ++ py "]"
  | JDict [] => py "{}"
  | JDict d =>
      py "{" ++ open_
      ++ Repr.join sep
           (map (fun kv => dumps_str (fst kv) ++ py ": "
                           ++ dumps_at indent (S level) (snd kv)) d)
      ++ close ++ py "}"
  end.

Definition dumps (v : json) : pystr := dumps_at None 0 v.
Definition dumps_indent2 (v : json) : pystr := dumps_at (Some 2%nat) 0 v.

End Dumps.

(** Servers for the examples: one on which every call returns, for a
    request with the given input and with a message or without; one that
    cannot create the task; one whose status updates raise. *)
Definition example_task : task := Task (py "task-1") (py "context-1").

Definition willing_server (input : pystr) (message : bool) : Server :=
  {| get_user_input := Ok input;
     has_message := message;
     new_task := Ok example_task;
     enqueue_event := fun _ => Ok tt;
     update_status := fun _ _ => Ok tt;
     json_dumps_indent := Dumps.dumps_indent2;
     json_dumps := Dumps.dumps |}.

Definition server_without_task (input : pystr) : Server :=
  {| get_user_input := Ok input;
     has_message := true;
     new_task := Raise (Exc TypeError (py "Message parts cannot be empty"));
     enqueue_event := fun _ => Ok tt;
     update_status := fun _ _ => Ok tt;
     json_dumps_indent := Dumps.dumps_indent2;
     json_dumps := Dumps.dumps |}.

Definition queue_closed : exception := Exc OtherException (py "Queue is closed.").

Definition deaf_server (input : pystr) : Server :=
  {| get_user_input := Ok input;
     has_message := true;
     new_task := Ok example_task;
     enqueue_event := fun _ => Ok tt;
     update_status := fun _ _ => Raise queue_closed;
     json_dumps_indent := Dumps.dumps_indent2;
     json_dumps := Dumps.dumps |}.

(* ================================================================== *)
(** * The settings of [main] ([src/main.py]) *)
(* ================================================================== *)

(** [os.environ]: the value of a variable, if it is set. *)
Definition environ := pystr -> option pystr.

(** [os.environ.get(key, default)] *)
Definition environ_get (env : environ) (key default : pystr) : pystr :=
  match env key with
  | Some v => v
  | None => default
  end.

(** The options found on the command line, as [argparse] converted them. *)
Record command_line : Type :=
  { option_host : option pystr;
    option_port : option Z;
    option_card_url : option pystr }.

(** The host, the port and the URL of the agent card as [main] computes
    them; [int] is Python's [int] on strings.  The defaults of the options
    are computed when the options are declared, before the command line is
    read. *)
Definition settings (int : pystr -> result Z) (env : environ)
    (args : command_line) : result (pystr * Z * pystr) :=
  let host_default := environ_get env (py "HOST") (py "0.0.0.0") in
  match int (environ_get env (py "AGENT_PORT")
               (environ_get env (py "PORT") (py "8080"))) with
  | Raise e => Raise e
  | Ok port_default =>
      let host := match option_host args with Some h => h | None => host_default end in
      let port := match option_port args with Some p => p | None => port_default end in
      let derived := py "http://" ++ host ++ py ":" ++ Repr.repr_int port ++ py "/" in
      let base_url :=
        match option_card_url args with
        | Some (c :: u) => c :: u
        | _ => environ_get env (py "AGENT_URL") derived
        end in
      Ok (host, port, base_url)
  end.

(** [int] on the strings of the examples: a non-empty run of ASCII digits
    is its value, anything else is taken to be invalid. *)
Definition int_of_digits_only (s : pystr) : result Z :=
  match s with
  | [] => Raise (Exc ValueError (py "invalid literal for int() with base 10: ''"))
  | _ :: _ =>
      if forallb Decoder.is_digit s then Ok (Decoder.int_of_digits s)
      else Raise (Exc ValueError
                    (py "invalid literal for int() with base 10: "
                       ++ Repr.repr_str s))
  end.

(** An environment in which only the variables listed are set. *)
Definition environ_of (vars : list (pystr * pystr)) : environ :=
  fun key => match lookup key (map (fun kv => (fst kv, JStr (snd kv))) vars) with
             | Some (JStr v) => Some v
             | _ => None
             end.

(* ================================================================== *)
(** * Facts about strings *)
(* ================================================================== *)

Lemma len_nonneg (s : pystr) : 0 <= len s.
Proof. unfold len; lia. Qed.

Lemma len_app (a b : pystr) : len (a ++ b) = len a + len b.
Proof. unfold len; rewrite length_app; lia. Qed.

Lemma len_cons (c : char) (s : pystr) : len (c :: s) = 1 + len s.
Proof. unfold len; simpl List.length; lia. Qed.

Lemma startswith_app (sub b : pystr) : startswith sub (sub ++ b) = true.
Proof.
  induction sub as [|x sub IH]; simpl; [reflexivity|].
  now rewrite N.eqb_refl, IH.
Qed.

Lemma startswith_inv (sub s : pystr) :
  startswith sub s = true -> exists b, s = sub ++ b.
Proof.
  revert s; induction sub as [|x sub IH]; intros s H.
  - now exists s.
  - destruct s as [|y s]; simpl in H; [discriminate|].
    apply andb_true_iff in H as [Hx Hs].
    apply N.eqb_eq in Hx; subst y.
    destruct (IH _ Hs) as [b ->]. now exists b.
Qed.

(** [find_at] returns [-1] or an index from [i] on, and the index does not
    depend on where the count starts. *)
Lemma find_at_shift (sub s : pystr) (i : Z) :
  (find_at sub s 0 = -1 /\ find_at sub s i = -1)
  \/ (0 <= find_at sub s 0 <= len s /\ find_at sub s i = i + find_at sub s 0).
Proof.
  revert i; induction s as [|c s IH]; intros i; simpl.
  - destruct (startswith sub []); [right|left]; rewrite ?len_cons; unfold len; simpl; lia.
  - destruct (startswith sub (c :: s)).
    + right. rewrite len_cons. pose proof (len_nonneg s). lia.
    + rewrite len_cons.
      destruct (IH 1) as [[H0 H1]|[H0 H1]], (IH (i + 1)) as [[G0 G1]|[G0 G1]];
        rewrite ?H1, ?G1; lia.
Qed.

Lemma find_range (sub s : pystr) : find sub s = -1 \/ 0 <= find sub s <= len s.
Proof. unfold find. destruct (find_at_shift sub s 0) as [[H _]|[H _]]; lia. Qed.

(** [find] returns the place of an occurrence. *)
Lemma find_occurs (sub s : pystr) :
  find sub s <> -1 ->
  exists a b, s = a ++ sub ++ b /\ len a = find sub s.
Proof.
  unfold find. induction s as [|c s IH]; simpl.
  - destruct (startswith sub []) eqn:E; [|congruence].
    intros _. apply startswith_inv in E as [b E]. now exists [], b.
  - destruct (startswith sub (c :: s)) eqn:E.
    + intros _. apply startswith_inv in E as [b E]. now exists [], b.
    + intros H. destruct (find_at_shift sub s 1) as [[H0 H1]|[H0 H1]]; [congruence|].
      destruct IH as (a & b & -> & Ha); [lia|].
      exists (c :: a), b. split; [reflexivity|]. rewrite len_cons; lia.
Qed.

Lemma find_at_here (sub s : pystr) (i : Z) :
  startswith sub s = true -> find_at sub s i = i.
Proof. intros H. destruct s; simpl; now rewrite H. Qed.

(** [find] returns the first occurrence: it is at most the place of any. *)
Lemma find_le (sub a b : pystr) :
  0 <= find sub (a ++ sub ++ b) <= len a.
Proof.
  unfold find. induction a as [|c a IH]; simpl app.
  - rewrite find_at_here by apply startswith_app. unfold len; simpl; lia.
  - simpl. destruct (startswith sub (c :: a ++ sub ++ b)).
    + rewrite len_cons. pose proof (len_nonneg a). lia.
    + rewrite len_cons.
      destruct (find_at_shift sub (a ++ sub ++ b) 1) as [[H0 H1]|[H0 H1]]; lia.
Qed.

(** [sub in s] holds exactly when [sub] occurs in [s]. *)
Lemma contains_spec (sub s : pystr) : contains sub s = true <-> occurs sub s.
Proof.
  unfold contains. split.
  - intros H. apply negb_true_iff, Z.eqb_neq in H.
    destruct (find_occurs sub s H) as (a & b & E & _). now exists a, b.
  - intros (a & b & ->). apply negb_true_iff, Z.eqb_neq.
    pose proof (find_le sub a b). lia.
Qed.

Lemma contains_find (sub s : pystr) :
  contains sub s = true -> 0 <= find sub s <= len s.
Proof.
  unfold contains. intros H. apply negb_true_iff, Z.eqb_neq in H.
  destruct (find_range sub s); [contradiction|assumption].
Qed.

(** A character that does not occur. *)
Lemma contains_char_false (c : char) (s : pystr) :
  contains [c] s = false -> ~ In c s.
Proof.
  intros H Hin. apply not_true_iff_false in H. apply H, contains_spec.
  apply in_split in Hin as (a & b & ->). now exists a, b.
Qed.

Lemma find_at_char (c : char) (pre rest : pystr) (i : Z) :
  ~ In c pre -> find_at [c] (pre ++ c :: rest) i = i + len pre.
Proof.
  revert i; induction pre as [|x pre IH]; intros i Hn; simpl.
  - rewrite N.eqb_refl. unfold len; simpl; lia.
  - destruct (N.eqb_spec c x) as [->|Hx]; [exfalso; apply Hn; now left|].
    simpl. rewrite IH by (intros Hin; apply Hn; now right).
    rewrite len_cons; lia.
Qed.

Lemma find_char (c : char) (pre rest : pystr) :
  contains [c] pre = false -> find [c] (pre ++ c :: rest) = len pre.
Proof.
  intros H. unfold find. rewrite find_at_char by now apply contains_char_false.
  lia.
Qed.

Lemma rfind_at_absent (c : char) (s : pystr) (i last : Z) :
  ~ In c s -> rfind_at [c] s i last = last.
Proof.
  revert i; induction s as [|x s IH]; intros i Hn; simpl; [reflexivity|].
  destruct (N.eqb_spec c x) as [->|Hx]; [exfalso; apply Hn; now left|].
  simpl. apply IH. intros Hin; apply Hn; now right.
Qed.

Lemma rfind_at_char (c : char) (a post : pystr) (i last : Z) :
  ~ In c post -> rfind_at [c] (a ++ c :: post) i last = i + len a.
Proof.
  revert i last; induction a as [|x a IH]; intros i last Hn.
  - simpl. rewrite N.eqb_refl. simpl. rewrite rfind_at_absent by assumption.
    unfold len; simpl; lia.
  - simpl app. cbn [rfind_at]. rewrite IH by assumption. rewrite len_cons; lia.
Qed.

Lemma rfind_char (c : char) (a post : pystr) :
  contains [c] post = false -> rfind [c] (a ++ c :: post) = len a.
Proof.
  intros H. unfold rfind. rewrite rfind_at_char by now apply contains_char_false.
  lia.
Qed.

(** ** Slices *)

Lemma clamp_inside (s : pystr) (i : Z) : 0 <= i <= len s -> clamp s i = i.
Proof. intros H. unfold clamp. destruct (Z.ltb_spec i 0); lia. Qed.

Lemma skipn_len_app (a b : pystr) : skipn (Z.to_nat (len a)) (a ++ b) = b.
Proof.
  unfold len. rewrite Nat2Z.id. rewrite skipn_app, skipn_all, Nat.sub_diag.
  reflexivity.
Qed.

Lemma firstn_len_app (a b : pystr) : firstn (Z.to_nat (len a)) (a ++ b) = a.
Proof.
  unfold len. rewrite Nat2Z.id. rewrite firstn_app, firstn_all, Nat.sub_diag.
  simpl. apply app_nil_r.
Qed.

Lemma slice_from_app (a b : pystr) : slice_from (a ++ b) (len a) = b.
Proof.
  unfold slice_from. rewrite clamp_inside.
  - apply skipn_len_app.
  - rewrite len_app. pose proof (len_nonneg a). pose proof (len_nonneg b). lia.
Qed.

(** [(a + b + c)[len(a) : len(a) + len(b)] == b] *)
Lemma slice_middle (a b c : pystr) :
  slice (a ++ b ++ c) (len a) (len a + len b) = b.
Proof.
  pose proof (len_nonneg a). pose proof (len_nonneg b). pose proof (len_nonneg c).
  unfold slice. rewrite !clamp_inside by (rewrite !len_app; lia).
  rewrite skipn_len_app. replace (len a + len b - len a) with (len b) by lia.
  apply firstn_len_app.
Qed.

(* ================================================================== *)
(** * The State Extractor *)
(* ================================================================== *)

Lemma net_depth_cons (c : char) (s : pystr) :
  net_depth (c :: s) = depth_change c + net_depth s.
Proof. reflexivity. Qed.




(** The payload of a message in which a labeled fence opens for the first
    time right after [pre] and the next fence marker follows [body]. *)
Lemma json_str_fenced (pre body post : pystr) :
  let message_text := pre ++ py "```json" ++ body ++ py "```" ++ post in
  find (py "```json") message_text = len pre ->
  find (py "```") (body ++ py "```" ++ post) = len body ->
  (let start := find (py "```json") message_text + 7 in
   slice message_text start (find_from (py "```") message_text start) = body)
  /\ json_str message_text = Some (strip body).
Proof.
  intros message_text Hopen Hclose. unfold json_str.
  pose proof (len_nonneg pre). pose proof (len_nonneg body).
  pose proof (len_nonneg post).
  assert (Hin : contains (py "```json") message_text = true).
  { unfold contains. rewrite Hopen. apply negb_true_iff, Z.eqb_neq. lia. }
  cbv zeta. rewrite Hin, Hopen.
  assert (Hmsg : message_text = (pre ++ py "```json") ++ body ++ py "```" ++ post).
  { unfold message_text. now rewrite <- app_assoc. }
  assert (Hlen : len (pre ++ py "```json") = len pre + 7).
  { rewrite len_app. reflexivity. }
  assert (Hend : find_from (py "```") message_text (len pre + 7)
                 = len pre + 7 + len body).
  { unfold find_from.
    destruct (Z.ltb_spec (len pre + 7) 0); [lia|].
    destruct (Z.ltb_spec (len message_text) (len pre + 7)) as [Hlt|_].
    - rewrite Hmsg, len_app, Hlen in Hlt.
      pose proof (len_nonneg (body ++ py "```" ++ post)). lia.
    - rewrite Hmsg at 1. rewrite <- Hlen, skipn_len_app.
      destruct (find_at_shift (py "```") (body ++ py "```" ++ post)
                  (len (pre ++ py "```json"))) as [[F0 _]|[_ F1]].
      + unfold find in Hclose. lia.
      + rewrite F1. unfold find in Hclose. rewrite Hclose. lia. }
  rewrite Hend, Hmsg, <- Hlen. now rewrite slice_middle.
Qed.

Lemma contains_absent (sub s : pystr) : ~ occurs sub s -> contains sub s = false.
Proof.
  intros H. destruct (contains sub s) eqn:E; [|reflexivity].
  exfalso. now apply H, contains_spec.
Qed.

Lemma contains_char_absent (c : char) (s : pystr) : ~ In c s -> contains [c] s = false.
Proof.
  intros H. apply contains_absent. intros (a & b & ->).
  apply H, in_or_app. right. now left.
Qed.

(* ================================================================== *)
(** * Running the pipeline *)
(* ================================================================== *)

Section Runs.
Context {R : Runtime}.

Lemma bind_lift_ok {A B} (a : A) (k : A -> Py B) : bind (lift (Ok a)) k = k a.
Proof. unfold bind, Monad_Py, pbind, lift; simpl. now destruct (k a). Qed.

Lemma bind_lift_raise {A B} (e : exception) (k : A -> Py B) :
  bind (lift (Raise e)) k = Run [] (Raise e).
Proof. reflexivity. Qed.

Lemma bind_run_ok {A B} (l : list pystr) (a : A) (k : A -> Py B) :
  bind (Run l (Ok a)) k = Run (l ++ calls (k a)) (outcome (k a)).
Proof. reflexivity. Qed.

Lemma bind_run_raise {A B} (l : list pystr) (e : exception) (k : A -> Py B) :
  bind (Run l (Raise e)) k = Run l (Raise e).
Proof. reflexivity. Qed.

(** ** [parse_game_state] *)

Lemma parse_game_state_payload (message_text payload : pystr) :
  json_str message_text = Some payload ->
  parse_game_state message_text = or_empty_state (json_loads payload).
Proof.
  intros H. unfold parse_game_state, try_except, or_empty_state. rewrite H.
  reflexivity.
Qed.

Lemma parse_game_state_no_payload (message_text : pystr) :
  json_str message_text = None ->
  parse_game_state message_text = Ok (JDict []).
Proof. intros H. unfold parse_game_state. now rewrite H. Qed.

Lemma parse_game_state_returns (message_text : pystr) :
  decode_errors_are_ValueError R ->
  exists game_state, parse_game_state message_text = Ok game_state.
Proof.
  intros Hlaw. destruct (json_str message_text) as [payload|] eqn:E.
  - rewrite (parse_game_state_payload _ _ E).
    destruct (json_loads payload) as [v|e] eqn:L; simpl.
    + now exists v.
    + rewrite (Hlaw _ _ L). now exists (JDict []).
  - rewrite (parse_game_state_no_payload _ E). now exists (JDict []).
Qed.

(** ** [call_claude] *)

Lemma py_get_dict (d : pydict) (k : pystr) (default : json) :
  py_get (JDict d) k default
  = Ok (match lookup k d with Some x => x | None => default end).
Proof. reflexivity. Qed.

(** The prompt is built for every game state that fits the action. *)
Lemma user_prompt_returns (game_state : json) (a : action) :
  a <> UNKNOWN -> state_fits a game_state = true ->
  exists prompt, user_prompt game_state a = Ok prompt.
Proof.
  intros Ha Hfit. destruct game_state as [| | | | | |d];
    try (destruct a; simpl in Hfit; congruence).
  unfold user_prompt. rewrite !py_get_dict.
  cbn [bind ret Monad_result rbind].
  destruct a; [eexists; reflexivity| |congruence].
  cbn [state_fits] in Hfit.
  destruct (lookup (py "current_offer") d) as [[| | | | | |o]|];
    try discriminate; rewrite !py_get_dict; cbn [rbind]; eexists; reflexivity.
Qed.

Lemma call_claude_no_prompt (game_state : json) (a : action) (m : pystr)
    (e : exception) :
  user_prompt game_state a = Raise e ->
  call_claude game_state a m = Run [] (Raise e).
Proof. intros H. unfold call_claude. now rewrite H. Qed.

Lemma call_claude_oracle_raises (game_state : json) (a : action)
    (m prompt : pystr) (e : exception) :
  user_prompt game_state a = Ok prompt ->
  messages_create prompt = Raise e ->
  call_claude game_state a m = Run [prompt] (Ok (failure_descriptor e)).
Proof.
  intros Hp Ho. unfold call_claude. rewrite Hp, bind_lift_ok.
  unfold ask_and_parse, ask. rewrite Ho, bind_run_raise. reflexivity.
Qed.

(** What [call_claude] makes of a reply. *)
Lemma call_claude_reply (game_state : json) (a : action)
    (m prompt reply : pystr) :
  user_prompt game_state a = Ok prompt ->
  messages_create prompt = Ok reply ->
  call_claude game_state a m
  = Run [prompt]
      (Ok (let response_text := strip reply in
           if startswith (py "{") response_text
           then or_failure (json_loads response_text)
           else if contains (py "{") response_text
           then or_failure
                  (json_loads
                     (slice response_text (find (py "{") response_text)
                        (rfind (py "}") response_text + 1)))
           else JDict [(py "error", JStr (py "Could not parse Claude response"));
                       (py "raw", JStr response_text)])).
Proof.
  intros Hp Ho. unfold call_claude. rewrite Hp, bind_lift_ok.
  unfold ask_and_parse, ask. rewrite Ho, bind_run_ok. cbv zeta.
  destruct (startswith (py "{") (strip reply)).
  - destruct (json_loads (strip reply)); reflexivity.
  - destruct (contains (py "{") (strip reply)); [|reflexivity].
    destruct (json_loads _); reflexivity.
Qed.

(** Once the prompt is built, [call_claude] sends it and returns. *)
Lemma call_claude_returns (game_state : json) (a : action) (m prompt : pystr) :
  user_prompt game_state a = Ok prompt ->
  exists result, call_claude game_state a m = Run [prompt] (Ok result).
Proof.
  intros Hp. destruct (messages_create prompt) as [reply|e] eqn:Ho.
  - rewrite (call_claude_reply _ _ _ _ _ Hp Ho). eexists; reflexivity.
  - rewrite (call_claude_oracle_raises _ _ _ _ _ Hp Ho). eexists; reflexivity.
Qed.

End Runs.

Section Decisions.
Context {R : Runtime}.

(** A run of [bind] that returns: both parts returned. *)
Lemma bind_ok_inv {A B} (m : Py A) (k : A -> Py B) (log : list pystr) (b : B) :
  bind m k = Run log (Ok b) ->
  exists l1 a l2, m = Run l1 (Ok a) /\ k a = Run l2 (Ok b) /\ log = l1 ++ l2.
Proof.
  destruct m as [l1 [a|e]]; cbn; [|discriminate].
  intros H. injection H as <- Hk. exists l1, a, (calls (k a)).
  destruct (k a) as [l2 r]; cbn in *. now subst r.
Qed.

Lemma lift_ok_inv {A} (r : result A) (l : list pystr) (a : A) :
  lift r = Run l (Ok a) -> r = Ok a /\ l = [].
Proof. unfold lift. intros H. now injection H as <- ->. Qed.

(** A slice that starts where a character was found starts with it. *)
Lemma slice_at_find (c : char) (s : pystr) (e : Z) :
  contains [c] s = true ->
  slice s (find [c] s) e = [] \/ startswith [c] (slice s (find [c] s) e) = true.
Proof.
  intros H. pose proof (contains_find _ _ H) as Hr.
  assert (Hne : find [c] s <> -1) by lia.
  destruct (find_occurs _ _ Hne) as (a & b & Hs & Ha).
  unfold slice. rewrite (clamp_inside s (find [c] s)) by assumption.
  rewrite <- Ha. clear H Hr Hne Ha. subst s. rewrite skipn_len_app. simpl app.
  destruct (Z.to_nat _); [now left|right].
  cbn [firstn startswith]. now rewrite N.eqb_refl.
Qed.

Lemma call_claude_returns_dict (game_state : json) (a : action) (m prompt : pystr) :
  objects_decode_to_dicts R ->
  user_prompt game_state a = Ok prompt ->
  exists d, call_claude game_state a m = Run [prompt] (Ok (JDict d)).
Proof.
  intros Hlaw Hp. destruct (messages_create prompt) as [reply|e] eqn:Ho.
  - rewrite (call_claude_reply _ _ _ _ _ Hp Ho). cbv zeta.
    destruct (startswith (py "{") (strip reply)) eqn:Es.
    + destruct (json_loads (strip reply)) as [v|e] eqn:L; simpl.
      * destruct (Hlaw _ _ L) as [_ Hd]. destruct (Hd Es) as [d ->]. now exists d.
      * eexists; reflexivity.
    + destruct (contains (py "{") (strip reply)) eqn:Ec; [|eexists; reflexivity].
      destruct (json_loads _) as [v|e] eqn:L; simpl; [|eexists; reflexivity].
      destruct (Hlaw _ _ L) as [Hne Hd].
      destruct (slice_at_find (ch "{") (strip reply)
                  (rfind (py "}") (strip reply) + 1) Ec) as [E|E].
      * contradiction.
      * destruct (Hd E) as [d ->]. now exists d.
  - rewrite (call_claude_oracle_raises _ _ _ _ _ Hp Ho). eexists; reflexivity.
Qed.

(** The even split of a list of numbers is computed without an error. *)
Lemma even_split_returns (qs : list json) :
  forallb is_number qs = true ->
  exists half other,
    map_result py_floordiv2 qs = Ok half
    /\ map_result (fun qh => py_sub (fst qh) (snd qh)) (combine qs half) = Ok other.
Proof.
  induction qs as [|q qs IH]; intros H.
  - now exists [], [].
  - simpl in H. apply andb_true_iff in H as [Hq Hqs].
    destruct (IH Hqs) as (half & other & Hh & Ho).
    destruct q; try discriminate; eexists; eexists;
      (split; [simpl; rewrite Hh; reflexivity|simpl; rewrite Ho; reflexivity]).
Qed.

(** The even split of a list of integers. *)
Lemma even_split_ints (Q : list Z) :
  map_result py_floordiv2 (map JInt Q) = Ok (map JInt (map (fun q => q / 2) Q))
  /\ map_result (fun qh => py_sub (fst qh) (snd qh))
       (combine (map JInt Q) (map JInt (map (fun q => q / 2) Q)))
     = Ok (map JInt (map (fun q => q - q / 2) Q)).
Proof.
  induction Q as [|q Q [IH1 IH2]]; [now split|].
  split; simpl; [now rewrite IH1|now rewrite IH2].
Qed.

End Decisions.

(** ** The decoder is a runtime of the kind assumed *)

Lemma cpython_decode_errors (oracle : pystr -> result pystr) :
  decode_errors_are_ValueError (cpython oracle).
Proof.
  intros s e. cbn. unfold cpython_json_loads.
  destruct (Decoder.decode s); [discriminate|]. now intros [= <-].
Qed.

Lemma scan_once_object (fuel : nat) (t : pystr) :
  Decoder.scan_once (S fuel) (ch "{" :: t)
  = match Decoder.skip_ws t with
    | c' :: t' =>
        if (c' =? ch "}")%N then Some (JDict [], t')
        else match Decoder.members (Decoder.scan_once fuel) fuel (c' :: t') [] with
             | Some (d, r) => Some (JDict d, r)
             | None => None
             end
    | [] => None
    end.
Proof. reflexivity. Qed.

Lemma cpython_objects (oracle : pystr -> result pystr) :
  objects_decode_to_dicts (cpython oracle).
Proof.
  intros s v H. change (cpython_json_loads s = Ok v) in H.
  unfold cpython_json_loads in H.
  destruct (Decoder.decode s) as [v'|] eqn:D; [|discriminate].
  injection H as ->. split.
  - intros ->. discriminate.
  - intros Hs. apply startswith_inv in Hs as [t ->].
    unfold Decoder.decode in D.
    change (py "{" ++ t) with (ch "{" :: t) in D.
    change (startswith [65279%N] (ch "{" :: t)) with false in D.
    change (Decoder.skip_ws (ch "{" :: t)) with (ch "{" :: t) in D.
    cbv iota in D. rewrite scan_once_object in D.
    destruct (Decoder.skip_ws t) as [|c' t']; [discriminate|].
    destruct (c' =? ch "}")%N.
    + destruct (Decoder.skip_ws t'); [|discriminate]. injection D as <-. now eexists.
    + destruct (Decoder.members _ _ _ _) as [[d r]|]; [|discriminate].
      destruct (Decoder.skip_ws r); [|discriminate]. injection D as <-. now eexists.
Qed.


(** ** The decoder under the recursion limit *)

Lemma members_agree scan scan' :
  (forall s, Limited.agrees (scan s) (scan' s)) ->
  forall fuel s acc,
    Limited.agrees (Limited.members scan fuel s acc) (Decoder.members scan' fuel s acc).
Proof.
  intros Hs. induction fuel as [|fuel IH]; intros s acc; [reflexivity|].
  destruct s as [|q t]; [reflexivity|].
  cbn [Limited.members Decoder.members].
  destruct (q =? dquote)%N; [|reflexivity].
  destruct (Decoder.scan_string t) as [[key r]|]; [|reflexivity].
  destruct (Decoder.skip_ws r) as [|c r1]; [reflexivity|].
  destruct (c =? ch ":")%N; [|reflexivity].
  specialize (Hs (Decoder.skip_ws r1)).
  destruct (scan (Decoder.skip_ws r1)) as [v r2| |w]; cbn [Limited.agrees] in Hs.
  - rewrite Hs. cbv zeta.
    destruct (Decoder.skip_ws r2) as [|c2 r3]; [reflexivity|].
    destruct (c2 =? ch "}")%N; [reflexivity|].
    destruct (c2 =? ch ",")%N; [apply IH|reflexivity].
  - rewrite Hs. reflexivity.
  - exact I.
Qed.

Lemma elements_agree scan scan' :
  (forall s, Limited.agrees (scan s) (scan' s)) ->
  forall fuel s acc,
    Limited.agrees (Limited.elements scan fuel s acc) (Decoder.elements scan' fuel s acc).
Proof.
  intros Hs. induction fuel as [|fuel IH]; intros s acc; [reflexivity|].
  cbn [Limited.elements Decoder.elements].
  specialize (Hs s).
  destruct (scan s) as [v r| |w]; cbn [Limited.agrees] in Hs.
  - rewrite Hs.
    destruct (Decoder.skip_ws r) as [|c r1]; [reflexivity|].
    destruct (c =? ch "]")%N; [reflexivity|].
    destruct (c =? ch ",")%N; [apply IH|reflexivity].
  - rewrite Hs. reflexivity.
  - exact I.
Qed.

Lemma of_option_agrees {A} (o : option (A * pystr)) :
  Limited.agrees (Limited.of_option o) o.
Proof. now destruct o as [[a r]|]. Qed.

Lemma scan_once_agrees fuel :
  forall depth s, Limited.agrees (Limited.scan_once fuel depth s) (Decoder.scan_once fuel s).
Proof.
  induction fuel as [|fuel IH]; intros depth s; [reflexivity|].
  destruct s as [|c t]; [reflexivity|].
  cbn [Limited.scan_once].
  destruct (c =? dquote)%N eqn:E1.
  { cbn [Decoder.scan_once]. rewrite E1.
    now destruct (Decoder.scan_string t) as [[str r]|]. }
  destruct (c =? ch "{")%N eqn:E2.
  { destruct depth as [|depth]; [exact I|].
    cbn [Decoder.scan_once]. rewrite E1, E2.
    destruct (Decoder.skip_ws t) as [|c' t']; [reflexivity|].
    destruct (c' =? ch "}")%N; [reflexivity|].
    pose proof (members_agree _ _ (IH depth) fuel (c' :: t') []) as H.
    destruct (Limited.members _ fuel (c' :: t') []) as [d r| |w];
      cbn [Limited.agrees] in H |- *.
    - now rewrite H.
    - now rewrite H.
    - exact I. }
  destruct (c =? ch "[")%N eqn:E3.
  { destruct depth as [|depth]; [exact I|].
    cbn [Decoder.scan_once]. rewrite E1, E2, E3.
    destruct (Decoder.skip_ws t) as [|c' t']; [reflexivity|].
    destruct (c' =? ch "]")%N; [reflexivity|].
    pose proof (elements_agree _ _ (IH depth) fuel (c' :: t') []) as H.
    destruct (Limited.elements _ fuel (c' :: t') []) as [d r| |w];
      cbn [Limited.agrees] in H |- *.
    - now rewrite H.
    - now rewrite H.
    - exact I. }
  apply of_option_agrees.
Qed.

Lemma members_within scan :
  (forall s, Limited.within (scan s)) ->
  forall fuel s acc, Limited.within (Limited.members scan fuel s acc).
Proof.
  intros Hs. induction fuel as [|fuel IH]; intros s acc; [exact I|].
  destruct s as [|q t]; [exact I|].
  cbn [Limited.members].
  destruct (q =? dquote)%N; [|exact I].
  destruct (Decoder.scan_string t) as [[key r]|]; [|exact I].
  destruct (Decoder.skip_ws r) as [|c r1]; [exact I|].
  destruct (c =? ch ":")%N; [|exact I].
  specialize (Hs (Decoder.skip_ws r1)).
  destruct (scan (Decoder.skip_ws r1)) as [v r2| |w]; cbn [Limited.within] in Hs;
    [|exact I|exact Hs].
  cbv zeta.
  destruct (Decoder.skip_ws r2) as [|c2 r3]; [exact I|].
  destruct (c2 =? ch "}")%N; [exact I|].
  destruct (c2 =? ch ",")%N; [apply IH|exact I].
Qed.

Lemma elements_within scan :
  (forall s, Limited.within (scan s)) ->
  forall fuel s acc, Limited.within (Limited.elements scan fuel s acc).
Proof.
  intros Hs. induction fuel as [|fuel IH]; intros s acc; [exact I|].
  cbn [Limited.elements].
  specialize (Hs s).
  destruct (scan s) as [v r| |w]; cbn [Limited.within] in Hs; [|exact I|exact Hs].
  destruct (Decoder.skip_ws r) as [|c r1]; [exact I|].
  destruct (c =? ch "]")%N; [exact I|].
  destruct (c =? ch ",")%N; [apply IH|exact I].
Qed.

Lemma of_option_within {A} (o : option (A * pystr)) :
  Limited.within (Limited.of_option o).
Proof. now destruct o as [[a r]|]. Qed.

Lemma scan_once_within fuel :
  forall depth s, (fuel <= depth)%nat -> Limited.within (Limited.scan_once fuel depth s).
Proof.
  induction fuel as [|fuel IH]; intros depth s Hd; [exact I|].
  destruct s as [|c t]; [exact I|].
  destruct depth as [|depth]; [lia|].
  assert (Hd' : (fuel <= depth)%nat) by lia.
  cbn [Limited.scan_once].
  destruct (c =? dquote)%N.
  { now destruct (Decoder.scan_string t) as [[str r]|]. }
  destruct (c =? ch "{")%N.
  { destruct (Decoder.skip_ws t) as [|c' t']; [exact I|].
    destruct (c' =? ch "}")%N; [exact I|].
    pose proof (members_within _ (fun s => IH depth s Hd') fuel (c' :: t') []) as H.
    now destruct (Limited.members _ fuel (c' :: t') []). }
  destruct (c =? ch "[")%N.
  { destruct (Decoder.skip_ws t) as [|c' t']; [exact I|].
    destruct (c' =? ch "]")%N; [exact I|].
    pose proof (elements_within _ (fun s => IH depth s Hd') fuel (c' :: t') []) as H.
    now destruct (Limited.elements _ fuel (c' :: t') []). }
  apply of_option_within.
Qed.

(** Under the limit the decoder returns what the decoder without limit
    returns, fails where it fails, or gives up with [RecursionError]. *)
Lemma limited_decode_agrees (limit : nat) (s : pystr) :
  (forall v, Limited.decode limit s = Ok v -> cpython_json_loads s = Ok v)
  /\ (forall e, Limited.decode limit s = Raise e ->
        (e = decode_error /\ cpython_json_loads s = Raise decode_error)
        \/ exists container, e = Limited.recursion_error container).
Proof.
  unfold Limited.decode, cpython_json_loads, Decoder.decode.
  destruct (startswith [65279%N] s).
  { split; [discriminate|]. intros e [= <-]. now left. }
  pose proof (scan_once_agrees (S (List.length s)) limit (Decoder.skip_ws s))
    as H.
  destruct (Limited.scan_once _ limit _) as [v r| |w]; cbn [Limited.agrees] in H.
  - rewrite H. destruct (Decoder.skip_ws r).
    + split; [trivial|discriminate].
    + split; [discriminate|]. intros e [= <-]. now left.
  - rewrite H. split; [discriminate|]. intros e [= <-]. now left.
  - split; [discriminate|]. intros e [= <-]. right. now exists w.
Qed.

(** A text shorter than the limit is decoded as without limit. *)
Lemma limited_decode_enough (limit : nat) (s : pystr) :
  (List.length s < limit)%nat -> Limited.decode limit s = cpython_json_loads s.
Proof.
  intros Hl.
  unfold Limited.decode, cpython_json_loads, Decoder.decode.
  destruct (startswith [65279%N] s); [reflexivity|].
  pose proof (scan_once_agrees (S (List.length s)) limit (Decoder.skip_ws s))
    as H.
  pose proof (scan_once_within (S (List.length s)) limit (Decoder.skip_ws s))
    as W.
  destruct (Limited.scan_once _ limit _) as [v r| |w];
    cbn [Limited.agrees Limited.within] in H, W.
  - rewrite H. now destruct (Decoder.skip_ws r).
  - now rewrite H.
  - exfalso. apply W. lia.
Qed.

Lemma cpython_limited_objects (limit : nat) (oracle : pystr -> result pystr) :
  objects_decode_to_dicts (cpython_limited limit oracle).
Proof.
  intros s v H. change (Limited.decode limit s = Ok v) in H.
  apply (proj1 (limited_decode_agrees limit s)) in H.
  exact (cpython_objects oracle s v H).
Qed.

(* ================================================================== *)
(** * The properties of the specification *)
(* ================================================================== *)

Section Claims.
Context {R : Runtime}.

Lemma ret_ok_inv {A} (a b : A) (l : list pystr) :
  ret a = Run l (Ok b) -> a = b /\ l = [].
Proof. cbn. unfold lift. intros H. now injection H as <- ->. Qed.

(** Unfolds one step of a run of [handle_negotiation_message] that
    returned. *)
Ltac returned H :=
  let l1 := fresh "l" in
  let l2 := fresh "l" in
  let x := fresh "x" in
  let Hx := fresh "Hx" in
  apply bind_ok_inv in H as (l1 & x & l2 & Hx & H & ->);
  try (apply lift_ok_inv in Hx as [Hx ->]).

(** C10.  A message that contains both [Action: PROPOSE] and
    [Action: ACCEPT_OR_REJECT] is classified as [PROPOSE]: the test for the
    proposal marker comes first. *)
Theorem propose_marker_takes_precedence (message_text : pystr) :
  occurs (py "Action: PROPOSE") message_text ->
  occurs (py "Action: ACCEPT_OR_REJECT") message_text ->
  get_action_type message_text = PROPOSE.
Proof.
  intros Hp _. apply contains_spec in Hp. unfold get_action_type. now rewrite Hp.
Qed.




(** C7.  When a labeled fence opens for the first time after [pre] and the
    next fence marker closes it after [body], the text taken is exactly
    [body], whatever braces [pre] and [post] hold; its trimmed form is the
    payload, and when that decodes [parse_game_state] returns the decoded
    value. *)
Theorem fenced_block_is_recovered (pre body post : pystr) :
  let message_text := pre ++ py "```json" ++ body ++ py "```" ++ post in
  find (py "```json") message_text = len pre ->
  find (py "```") (body ++ py "```" ++ post) = len body ->
  (let start := find (py "```json") message_text + 7 in
   slice message_text start (find_from (py "```") message_text start) = body)
  /\ json_str message_text = Some (strip body)
  /\ (forall game_state,
        json_loads (strip body) = Ok game_state ->
        parse_game_state message_text = Ok game_state).
Proof.
  intros message_text Hopen Hclose.
  destruct (json_str_fenced pre body post Hopen Hclose) as [Hs Hj].
  split; [exact Hs|]. split; [exact Hj|].
  intros game_state Hv.
  fold message_text in Hj. rewrite (parse_game_state_payload _ _ Hj), Hv.
  reflexivity.
Qed.

(** C9.  A decision that [handle_negotiation_message] returns has an
    [error] field only when the action is [UNKNOWN]: the fallback proposal
    and the fallback verdict have none, and an oracle result that has one
    is not passed through. *)
Theorem error_field_only_for_unknown_action
    (message_text : pystr) (log : list pystr) (decision : json) :
  handle_negotiation_message message_text = Run log (Ok decision) ->
  has_field (py "error") decision = true ->
  get_action_type message_text = UNKNOWN /\ decision = unknown_action_decision.
Proof.
  intros H Herr. unfold handle_negotiation_message in H. cbv zeta in H.
  returned H.
  assert (Hpass : forall result l,
            py_in (py "error") result = Ok false ->
            ret result = Run l (Ok decision) -> False).
  { intros result l Hin Hret. apply ret_ok_inv in Hret as [-> _].
    unfold has_field in Herr. unfold py_in in Hin.
    destruct decision; try discriminate Herr.
    destruct (lookup (py "error") items); congruence. }
  destruct (get_action_type message_text).
  - exfalso. returned H. returned H. destruct x1.
    + do 5 returned H. apply ret_ok_inv in H as [<- _]. discriminate Herr.
    + eapply Hpass; eassumption.
  - exfalso. returned H. returned H. destruct x1.
    + returned H. apply ret_ok_inv in H as [<- _]. discriminate Herr.
    + eapply Hpass; eassumption.
  - apply ret_ok_inv in H as [<- _]. now split.
Qed.

(** What the handler does with a failure descriptor when an offer is
    answered. *)
Lemma verdict_on_failure (message_text : pystr) (game_state : json)
    (log : list pystr) (failure : pydict) (cause : json) :
  get_action_type message_text = ACCEPT_OR_REJECT ->
  parse_game_state message_text = Ok game_state ->
  call_claude game_state ACCEPT_OR_REJECT message_text
  = Run log (Ok (JDict failure)) ->
  lookup (py "error") failure = Some cause ->
  handle_negotiation_message message_text
  = Run log (Ok (fallback_verdict (py_str cause))).
Proof.
  intros Ha Hgs Hcall Hc. unfold handle_negotiation_message. cbv zeta.
  rewrite Hgs, Ha, bind_lift_ok. cbv iota. rewrite Hcall, bind_run_ok.
  cbn [py_in]. rewrite Hc, bind_lift_ok, py_get_dict, Hc, bind_lift_ok.
  cbn [ret Monad_Py lift calls outcome]. now rewrite app_nil_r.
Qed.

(** C3.  When an offer is answered and [call_claude] returns a failure
    descriptor, the decision has [accept = False] and its reason ends with
    the descriptor's error: with the error text itself when it is a
    string, as it is when the oracle call raised. *)
Theorem failure_yields_rejection (message_text : pystr) (game_state : json) :
  get_action_type message_text = ACCEPT_OR_REJECT ->
  parse_game_state message_text = Ok game_state ->
  (forall log failure cause,
      call_claude game_state ACCEPT_OR_REJECT message_text
      = Run log (Ok (JDict failure)) ->
      lookup (py "error") failure = Some cause ->
      handle_negotiation_message message_text
      = Run log
          (Ok (JDict [(py "accept", JBool false);
                      (py "reason",
                       JStr (py "Fallback rejection due to error: "
                               ++ py_str cause))])))
  /\ (forall log failure text,
        call_claude game_state ACCEPT_OR_REJECT message_text
        = Run log (Ok (JDict failure)) ->
        lookup (py "error") failure = Some (JStr text) ->
        handle_negotiation_message message_text
        = Run log (Ok (fallback_verdict text)))
  /\ (forall prompt e,
        user_prompt game_state ACCEPT_OR_REJECT = Ok prompt ->
        messages_create prompt = Raise e ->
        handle_negotiation_message message_text
        = Run [prompt] (Ok (fallback_verdict (exc_str e)))).
Proof.
  intros Ha Hgs. split; [|split].
  - intros log failure cause Hcall Hc.
    now apply (verdict_on_failure _ _ _ _ _ Ha Hgs Hcall Hc).
  - intros log failure text Hcall Hc.
    now apply (verdict_on_failure _ _ _ _ _ Ha Hgs Hcall Hc).
  - intros prompt e Hp He.
    apply (verdict_on_failure _ _ _ _ (JStr (exc_str e)) Ha Hgs
             (call_claude_oracle_raises _ _ message_text _ _ Hp He)).
    reflexivity.
Qed.

End Claims.

Section Guarantor.
Context {R : Runtime}.

(** The fallback proposal, for quantities whose even split is [half] and
    [other]. *)
Lemma proposal_on_failure (message_text : pystr) (state : pydict)
    (log : list pystr) (failure : pydict) (cause : json)
    (qs half other : list json) :
  get_action_type message_text = PROPOSE ->
  parse_game_state message_text = Ok (JDict state) ->
  match lookup (py "quantities") state with
  | Some x => x
  | None => JList [JInt 1; JInt 1; JInt 1]
  end = JList qs ->
  map_result py_floordiv2 qs = Ok half ->
  map_result (fun qh => py_sub (fst qh) (snd qh)) (combine qs half) = Ok other ->
  call_claude (JDict state) PROPOSE message_text = Run log (Ok (JDict failure)) ->
  lookup (py "error") failure = Some cause ->
  handle_negotiation_message message_text
  = Run log (Ok (fallback_proposal half other (py_str cause))).
Proof.
  intros Ha Hgs Hq Hh Ho Hcall Hc. unfold handle_negotiation_message. cbv zeta.
  rewrite Hgs, Ha, bind_lift_ok. cbv iota. rewrite Hcall, bind_run_ok.
  cbn [py_in]. rewrite Hc, bind_lift_ok, py_get_dict, Hq, bind_lift_ok.
  cbn [py_iter]. rewrite bind_lift_ok, Hh, bind_lift_ok, Ho, bind_lift_ok.
  rewrite py_get_dict, Hc, bind_lift_ok.
  cbn [ret Monad_Py lift calls outcome]. now rewrite app_nil_r.
Qed.

Lemma nth_map_zero (f : Z -> Z) (Q : list Z) (i : nat) :
  f 0 = 0 -> nth i (map f Q) 0 = f (nth i Q 0).
Proof. intros Hf. rewrite <- Hf at 1. apply map_nth. Qed.

(** C2.  When a proposal is requested, the quantities are the integers [Q]
    and [call_claude] returns a failure descriptor, the decision is the
    fallback proposal in which [allocation_self[i] = Q[i] // 2] and
    [allocation_self[i] + allocation_other[i] = Q[i]] for every index, and
    whose reason ends with the descriptor's error.  (The integers need not
    be non-negative.)  Scenario A, with [Q = [3, 5]], is the witness
    below. *)
Theorem fallback_proposal_splits_evenly (message_text : pystr) (state : pydict)
    (log : list pystr) (failure : pydict) (cause : json) (Q : list Z) :
  get_action_type message_text = PROPOSE ->
  parse_game_state message_text = Ok (JDict state) ->
  lookup (py "quantities") state = Some (JList (map JInt Q)) ->
  call_claude (JDict state) PROPOSE message_text = Run log (Ok (JDict failure)) ->
  lookup (py "error") failure = Some cause ->
  let allocation_self := map (fun q => q / 2) Q in
  let allocation_other := map (fun q => q - q / 2) Q in
  handle_negotiation_message message_text
  = Run log
      (Ok (JDict [(py "allocation_self", JList (map JInt allocation_self));
                  (py "allocation_other", JList (map JInt allocation_other));
                  (py "reason",
                   JStr (py "Fallback proposal due to error: " ++ py_str cause))]))
  /\ List.length allocation_self = List.length Q
  /\ List.length allocation_other = List.length Q
  /\ forall i, (i < List.length Q)%nat ->
       nth i allocation_self 0 = nth i Q 0 / 2
       /\ nth i allocation_self 0 + nth i allocation_other 0 = nth i Q 0.
Proof.
  intros Ha Hgs Hq Hcall Hc allocation_self allocation_other.
  destruct (even_split_ints Q) as [Hh Ho].
  split; [|split; [|split]].
  - apply (proposal_on_failure message_text state log failure cause (map JInt Q));
      try assumption.
    now rewrite Hq.
  - apply length_map.
  - apply length_map.
  - intros i _. unfold allocation_self, allocation_other.
    rewrite (nth_map_zero (fun q => q / 2)) by reflexivity.
    rewrite (nth_map_zero (fun q => q - q / 2)) by reflexivity.
    split; [reflexivity|lia].
Qed.

(** The decisions the handler builds itself have the fields of their
    action type. *)
Lemma built_decisions_are_valid (half other : list json) (cause : pystr) :
  structurally_valid PROPOSE (fallback_proposal half other cause)
  /\ structurally_valid ACCEPT_OR_REJECT (fallback_verdict cause)
  /\ structurally_valid UNKNOWN unknown_action_decision.
Proof. repeat split; reflexivity. Qed.

(** An oracle result without [error] field is the decision. *)
Lemma handle_passes_through (message_text : pystr) (game_state : json)
    (log : list pystr) (d : pydict) :
  get_action_type message_text <> UNKNOWN ->
  parse_game_state message_text = Ok game_state ->
  call_claude game_state (get_action_type message_text) message_text
  = Run log (Ok (JDict d)) ->
  lookup (py "error") d = None ->
  handle_negotiation_message message_text = Run log (Ok (JDict d)).
Proof.
  intros Ha Hgs Hcall Hc. unfold handle_negotiation_message. cbv zeta.
  rewrite Hgs, bind_lift_ok.
  destruct (get_action_type message_text); [| |congruence];
    rewrite Hcall, bind_run_ok; cbn [py_in]; rewrite Hc, bind_lift_ok;
    cbn [ret Monad_Py lift calls outcome]; now rewrite app_nil_r.
Qed.

(** C1, as amended.  For every message whose game state fits the action
    (see [state_fits]) the handler returns a decision and raises nothing:
    the error decision, with no oracle call, when the action is [UNKNOWN];
    otherwise, after one oracle call, the fallback decision of the action
    or the object [call_claude] returned, which is a dict without [error]
    field and is passed through as it is. *)
Theorem handler_returns_a_decision (message_text : pystr) (game_state : json) :
  objects_decode_to_dicts R ->
  parse_game_state message_text = Ok game_state ->
  state_fits (get_action_type message_text) game_state = true ->
  exists log decision,
    handle_negotiation_message message_text = Run log (Ok decision)
    /\ ((get_action_type message_text = UNKNOWN
         /\ log = [] /\ decision = unknown_action_decision)
        \/ (get_action_type message_text <> UNKNOWN
            /\ exists prompt oracle_result,
                log = [prompt]
                /\ call_claude game_state (get_action_type message_text)
                     message_text
                   = Run [prompt] (Ok oracle_result)
                /\ decision_shape (get_action_type message_text)
                     oracle_result decision)).
Proof.
  intros Hlaw Hgs Hfit.
  destruct (get_action_type message_text) eqn:Ea.
  - (* PROPOSE *)
    destruct (user_prompt_returns game_state PROPOSE) as [prompt Hp];
      [discriminate|assumption|].
    destruct (call_claude_returns_dict _ _ message_text _ Hlaw Hp) as [d Hcall].
    destruct game_state as [| | | | | |state]; try discriminate Hfit.
    destruct (lookup (py "error") d) as [cause|] eqn:Hc.
    + assert (Hq : exists qs,
                match lookup (py "quantities") state with
                | Some x => x
                | None => JList [JInt 1; JInt 1; JInt 1]
                end = JList qs /\ forallb is_number qs = true).
      { cbn [state_fits] in Hfit.
        destruct (lookup (py "quantities") state) as [[| | | | |l|]|];
          try discriminate Hfit; eexists; split; reflexivity || assumption. }
      destruct Hq as (qs & Hq & Hnum).
      destruct (even_split_returns qs Hnum) as (half & other & Hh & Ho).
      exists [prompt], (fallback_proposal half other (py_str cause)).
      split; [now apply (proposal_on_failure _ _ _ _ _ _ _ _ Ea Hgs Hq Hh Ho Hcall)|].
      right. split; [discriminate|]. exists prompt, (JDict d).
      repeat split; [assumption|]. left. now exists half, other, (py_str cause).
    + exists [prompt], (JDict d). split.
      * apply (handle_passes_through _ (JDict state)); rewrite ?Ea;
          [discriminate|assumption..].
      * right. split; [discriminate|]. exists prompt, (JDict d).
        repeat split; [assumption|]. right. split; [reflexivity|]. now exists d.
  - (* ACCEPT_OR_REJECT *)
    destruct (user_prompt_returns game_state ACCEPT_OR_REJECT) as [prompt Hp];
      [discriminate|assumption|].
    destruct (call_claude_returns_dict _ _ message_text _ Hlaw Hp) as [d Hcall].
    destruct (lookup (py "error") d) as [cause|] eqn:Hc.
    + exists [prompt], (fallback_verdict (py_str cause)).
      split; [now apply (verdict_on_failure _ _ _ _ _ Ea Hgs Hcall)|].
      right. split; [discriminate|]. exists prompt, (JDict d).
      repeat split; [assumption|]. left. now exists (py_str cause).
    + exists [prompt], (JDict d). split.
      * apply (handle_passes_through _ game_state); rewrite ?Ea;
          [discriminate|assumption..].
      * right. split; [discriminate|]. exists prompt, (JDict d).
        repeat split; [assumption|]. right. split; [reflexivity|]. now exists d.
  - (* UNKNOWN *)
    exists [], unknown_action_decision. split.
    + unfold handle_negotiation_message. cbv zeta.
      rewrite Hgs, Ea, bind_lift_ok. reflexivity.
    + left. now repeat split.
Qed.

Lemma startswith_contains (sub s : pystr) :
  startswith sub s = true -> contains sub s = true.
Proof.
  intros H. apply contains_spec. apply startswith_inv in H as [b ->].
  now exists [], b.
Qed.

(** From the first opening brace to the last closing brace. *)
Lemma first_to_last_brace (pre mid post : pystr) :
  ~ In (ch "{") pre -> ~ In (ch "}") post ->
  let t := pre ++ py "{" ++ mid ++ py "}" ++ post in
  slice t (find (py "{") t) (rfind (py "}") t + 1) = py "{" ++ mid ++ py "}".
Proof.
  intros Hpre Hpost t.
  assert (Hf : find (py "{") t = len pre).
  { apply (find_char (ch "{")). now apply contains_char_absent. }
  assert (Hr : rfind (py "}") t = len (pre ++ py "{" ++ mid)).
  { unfold t. replace (pre ++ py "{" ++ mid ++ py "}" ++ post)
      with ((pre ++ py "{" ++ mid) ++ ch "}" :: post)
      by (now rewrite <- !app_assoc).
    apply rfind_char. now apply contains_char_absent. }
  rewrite Hf, Hr. unfold t.
  replace (pre ++ py "{" ++ mid ++ py "}" ++ post)
    with (pre ++ (py "{" ++ mid ++ py "}") ++ post)
    by (now rewrite <- !app_assoc).
  replace (len (pre ++ py "{" ++ mid) + 1)
    with (len pre + len (py "{" ++ mid ++ py "}"))
    by (rewrite !len_app; change (len (py "{")) with 1;
        change (len (py "}")) with 1; lia).
  apply slice_middle.
Qed.

(** C8.  The parsing policy of [call_claude], with [t] the trimmed reply:
    when [t] starts with an opening brace, all of [t] is decoded; otherwise,
    when [t] holds an opening brace, the text from the first opening brace
    to the last closing brace is decoded, whatever braces lie between; when
    [t] holds no opening brace, the result is the failure descriptor with
    [t] as [raw].  A decoding error becomes a failure descriptor.  The reply
    of scenario D is the witness below. *)
Theorem call_claude_parsing_policy
    (game_state : json) (a : action) (m prompt reply : pystr) :
  user_prompt game_state a = Ok prompt ->
  messages_create prompt = Ok reply ->
  let t := strip reply in
  (startswith (py "{") t = true ->
   call_claude game_state a m = Run [prompt] (Ok (or_failure (json_loads t))))
  /\ (startswith (py "{") t = false -> contains (py "{") t = true ->
      call_claude game_state a m
      = Run [prompt]
          (Ok (or_failure
                 (json_loads (slice t (find (py "{") t) (rfind (py "}") t + 1))))))
  /\ (forall pre mid post,
        t = pre ++ py "{" ++ mid ++ py "}" ++ post ->
        ~ In (ch "{") pre -> ~ In (ch "}") post ->
        slice t (find (py "{") t) (rfind (py "}") t + 1) = py "{" ++ mid ++ py "}")
  /\ (contains (py "{") t = false ->
      call_claude game_state a m
      = Run [prompt]
          (Ok (JDict [(py "error", JStr (py "Could not parse Claude response"));
                      (py "raw", JStr t)]))).
Proof.
  intros Hp Ho t. pose proof (call_claude_reply _ _ m _ _ Hp Ho) as H.
  cbv zeta in H. fold t in H. repeat split.
  - intros Hs. now rewrite Hs in H.
  - intros Hs Hc. now rewrite Hs, Hc in H.
  - intros pre mid post -> Hpre Hpost. now apply first_to_last_brace.
  - intros Hc. destruct (startswith (py "{") t) eqn:Hs.
    + apply startswith_contains in Hs. congruence.
    + now rewrite Hc in H.
Qed.

End Guarantor.

(* ================================================================== *)
(** * The scenarios, and where the specification says too much *)
(* ================================================================== *)

Lemma absent_of_contains (sub s : pystr) : contains sub s = false -> ~ occurs sub s.
Proof. intros H Ho. apply contains_spec in Ho. congruence. Qed.


(** Both markers: a proposal (C10). *)
Lemma both_markers_is_a_proposal :
  occurs (py "Action: PROPOSE") both_markers
  /\ occurs (py "Action: ACCEPT_OR_REJECT") both_markers
  /\ get_action_type both_markers = PROPOSE.
Proof.
  assert (H1 : occurs (py "Action: PROPOSE") both_markers)
    by (apply contains_spec; vm_compute; reflexivity).
  assert (H2 : occurs (py "Action: ACCEPT_OR_REJECT") both_markers)
    by (apply contains_spec; vm_compute; reflexivity).
  exact (conj H1 (conj H2 (propose_marker_takes_precedence both_markers H1 H2))).
Defined.







(** Scenario B, extraction: the fenced block wins over the bare object
    that follows it (C7). *)
Lemma scenario_B_state_is_recovered :
  parse_game_state (R := oracle_down) scenario_B = Ok scenario_B_state.
Proof.
  apply (proj2 (proj2 (fenced_block_is_recovered (R := oracle_down)
                         scenario_B_pre scenario_B_body scenario_B_post
                         ltac:(vm_compute; reflexivity)
                         ltac:(vm_compute; reflexivity)))).
  vm_compute. reflexivity.
Defined.

(** Scenario C again: the error field goes with the unknown action (C9). *)
Lemma scenario_C_error_field :
  get_action_type scenario_C = UNKNOWN
  /\ unknown_action_decision = unknown_action_decision.
Proof.
  apply (error_field_only_for_unknown_action (R := oracle_down) scenario_C []).
  - vm_compute. reflexivity.
  - vm_compute. reflexivity.
Defined.

(** Scenario B with the oracle down: the offer is rejected (C3). *)
Lemma scenario_B_oracle_down :
  handle_negotiation_message (R := oracle_down) scenario_B
  = Run [prompt_for oracle_down scenario_B]
      (Ok (JDict [(py "accept", JBool false);
                  (py "reason",
                   JStr (py "Fallback rejection due to error: Connection error."))])).
Proof.
  apply (proj2 (proj2 (failure_yields_rejection (R := oracle_down)
                         scenario_B scenario_B_state
                         ltac:(vm_compute; reflexivity)
                         ltac:(vm_compute; reflexivity)))
           (prompt_for oracle_down scenario_B)
           (Exc OtherException (py "Connection error."))).
  - vm_compute. reflexivity.
  - vm_compute. reflexivity.
Defined.

(** Scenario A: quantities 3 and 5, oracle down (C2). *)
Lemma scenario_A_oracle_down :
  handle_negotiation_message (R := oracle_down) scenario_A
  = Run [prompt_for oracle_down scenario_A]
      (Ok (JDict [(py "allocation_self", JList [JInt 1; JInt 2]);
                  (py "allocation_other", JList [JInt 2; JInt 3]);
                  (py "reason",
                   JStr (py "Fallback proposal due to error: Connection error."))])).
Proof.
  apply (proj1 (fallback_proposal_splits_evenly (R := oracle_down)
                  scenario_A scenario_A_state
                  [prompt_for oracle_down scenario_A]
                  [(py "error", JStr (py "Connection error."))]
                  (JStr (py "Connection error.")) [3; 5]
                  ltac:(vm_compute; reflexivity)
                  ltac:(vm_compute; reflexivity)
                  ltac:(vm_compute; reflexivity)
                  ltac:(vm_compute; reflexivity)
                  ltac:(vm_compute; reflexivity))).
Defined.

(** Scenario D: the object inside the prose is decoded (C8). *)
Lemma scenario_D_is_decoded :
  call_claude (R := oracle_says scenario_D_reply)
    scenario_B_state ACCEPT_OR_REJECT scenario_B
  = Run [prompt_for oracle_down scenario_B]
      (Ok (JDict [(py "accept", JBool false);
                  (py "reason", JStr (py "low value"))])).
Proof.
  refine (eq_trans
            (proj1 (proj2 (call_claude_parsing_policy
                             (R := oracle_says scenario_D_reply)
                             scenario_B_state ACCEPT_OR_REJECT scenario_B
                             (prompt_for oracle_down scenario_B) scenario_D_reply
                             _ _)) _ _) _).
  - vm_compute. reflexivity.
  - vm_compute. reflexivity.
  - vm_compute. reflexivity.
  - vm_compute. reflexivity.
  - vm_compute. reflexivity.
Defined.

(** Scenario B: the oracle's verdict is passed through (C1, as amended). *)
Lemma scenario_B_passes_through :
  exists log decision,
    handle_negotiation_message (R := oracle_says scenario_B_reply) scenario_B
    = Run log (Ok decision)
    /\ ((get_action_type scenario_B = UNKNOWN
         /\ log = [] /\ decision = unknown_action_decision)
        \/ (get_action_type scenario_B <> UNKNOWN
            /\ exists prompt oracle_result,
                log = [prompt]
                /\ call_claude (R := oracle_says scenario_B_reply)
                     scenario_B_state (get_action_type scenario_B) scenario_B
                   = Run [prompt] (Ok oracle_result)
                /\ decision_shape (get_action_type scenario_B)
                     oracle_result decision)).
Proof.
  apply (handler_returns_a_decision (R := oracle_says scenario_B_reply)
           scenario_B scenario_B_state).
  - apply cpython_objects.
  - vm_compute. reflexivity.
  - vm_compute. reflexivity.
Defined.

Example scenario_B_decision :
  outcome (handle_negotiation_message (R := oracle_says scenario_B_reply) scenario_B)
  = Ok (JDict [(py "accept", JBool true); (py "reason", JStr (py "good value"))]).
Proof. vm_compute. reflexivity. Qed.

(** C1 as stated fails: the handler raises when the offer of the game
    state is not a dict (before the oracle is called) and when the
    quantities cannot be split (after the oracle failed), and it passes an
    oracle object through whatever its fields are. *)
Lemma handler_raises_and_passes_any_object :
  (get_action_type offer_is_a_number = ACCEPT_OR_REJECT
   /\ handle_negotiation_message (R := oracle_down) offer_is_a_number
      = Run [] (Raise (Exc AttributeError
                         (py "'int' object has no attribute 'get'"))))
  /\ (get_action_type quantities_is_a_number = PROPOSE
      /\ outcome (handle_negotiation_message (R := oracle_down)
                    quantities_is_a_number)
         = Raise (Exc TypeError (py "'int' object is not iterable")))
  /\ (get_action_type scenario_A = PROPOSE
      /\ outcome (handle_negotiation_message (R := oracle_says (py "{}"))
                    scenario_A)
         = Ok (JDict [])
      /\ ~ structurally_valid PROPOSE (JDict [])).
Proof.
  repeat split; try (vm_compute; reflexivity).
  intros (H & _). discriminate H.
Qed.

(* ================================================================== *)
(** * More on the State Extractor *)
(* ================================================================== *)

(** The first occurrence of a character. *)
Lemma first_occurrence (c : char) (s : pystr) :
  In c s -> exists pre rest, s = pre ++ c :: rest /\ ~ In c pre.
Proof.
  induction s as [|x s IH]; intros H; [contradiction|].
  destruct (N.eq_dec x c) as [->|Hx].
  - exists [], s. split; [reflexivity|]. intros [].
  - destruct H as [H|H]; [contradiction|].
    destruct (IH H) as (pre & rest & -> & Hpre).
    exists (x :: pre), rest. split; [reflexivity|].
    intros [E|E]; [now apply Hx|now apply Hpre].
Qed.

Lemma contains_char_true (c : char) (s : pystr) : contains [c] s = true -> In c s.
Proof.
  intros H. apply contains_spec in H as (a & b & ->).
  apply in_or_app. right. now left.
Qed.

(** [s[len(a) : len(a) + m]] is the first [m] characters after [a]. *)
Lemma slice_after (a x : pystr) (m : nat) :
  (m <= List.length x)%nat ->
  slice (a ++ x) (len a) (len a + Z.of_nat m) = firstn m x.
Proof.
  intros Hm. rewrite <- (firstn_skipn m x) at 1.
  replace (Z.of_nat m) with (len (firstn m x))
    by (unfold len; rewrite length_firstn; lia).
  apply slice_middle.
Qed.

Lemma slice_nothing (s : pystr) (a b : Z) :
  clamp s b <= clamp s a -> slice s a b = [].
Proof.
  intros H. unfold slice.
  replace (Z.to_nat (clamp s b - clamp s a)) with 0%nat by lia. reflexivity.
Qed.

(** Inside an object, the loop either runs to the end of the text and
    leaves [end_] as it was, or stops after the [n]-th character, the
    first at which the depth is back to zero. *)
Lemma scan_braces_result (cs : pystr) :
  forall i depth end_,
    1 <= depth ->
    (scan_braces cs i depth end_ = end_
     /\ forall k, (k <= List.length cs)%nat -> 1 <= depth + net_depth (firstn k cs))
    \/ exists n, (0 < n <= List.length cs)%nat
         /\ scan_braces cs i depth end_ = i + Z.of_nat n
         /\ depth + net_depth (firstn n cs) = 0
         /\ forall k, (k < n)%nat -> 1 <= depth + net_depth (firstn k cs).
Proof.
  induction cs as [|c cs IH]; intros i depth end_ Hd.
  - left. split; [reflexivity|]. intros k Hk.
    replace k with 0%nat by (simpl in Hk; lia). simpl. lia.
  - assert (Hcons : forall d',
              1 <= d' -> d' = depth + depth_change c ->
              (scan_braces cs (i + 1) d' end_ = end_
               /\ forall k, (k <= List.length (c :: cs))%nat ->
                            1 <= depth + net_depth (firstn k (c :: cs)))
              \/ exists n, (0 < n <= List.length (c :: cs))%nat
                   /\ scan_braces cs (i + 1) d' end_ = i + Z.of_nat n
                   /\ depth + net_depth (firstn n (c :: cs)) = 0
                   /\ forall k, (k < n)%nat ->
                                1 <= depth + net_depth (firstn k (c :: cs))).
    { intros d' Hd' E.
      destruct (IH (i + 1) d' end_ Hd') as [[Hs Hall]|(n & Hn & Hs & Hz & Hall)].
      - left. split; [exact Hs|]. intros [|k] Hk; [simpl; lia|].
        cbn [firstn]. rewrite net_depth_cons.
        specialize (Hall k). simpl in Hk. lia.
      - right. exists (S n). split; [simpl; lia|]. split; [lia|]. split.
        + cbn [firstn]. rewrite net_depth_cons. lia.
        + intros [|k] Hk; [simpl; lia|].
          cbn [firstn]. rewrite net_depth_cons.
          specialize (Hall k). lia. }
    cbn [scan_braces]. unfold depth_change in Hcons.
    destruct (c =? ch "{")%N eqn:Eo.
    + apply Hcons; lia.
    + destruct (c =? ch "}")%N eqn:Ec.
      * destruct (Z.eqb_spec (depth - 1) 0) as [E|E].
        -- right. exists 1%nat. split; [simpl; lia|]. split; [lia|]. split.
           ++ cbn [firstn]. rewrite net_depth_cons. unfold depth_change.
              rewrite Eo, Ec. simpl. lia.
           ++ intros k Hk. replace k with 0%nat by lia. simpl. lia.
        -- apply Hcons; lia.
      * apply (Hcons depth); lia.
Qed.

Section MoreExtraction.
Context {R : Runtime}.

(** X1.  A message with neither a labeled fence nor an opening brace (the
    empty message is one) has the empty state, and [json.loads] has no say
    in it: this holds for every runtime. *)
Theorem message_without_payload_has_empty_state (message_text : pystr) :
  ~ occurs (py "```json") message_text ->
  ~ In (ch "{") message_text ->
  json_str message_text = None
  /\ parse_game_state message_text = Ok (JDict []).
Proof.
  intros Hf Hb.
  assert (E : json_str message_text = None).
  { assert (Hc : contains (py "{") message_text = false)
      by now apply (contains_char_absent (ch "{")).
    unfold json_str. now rewrite (contains_absent _ _ Hf), Hc. }
  split; [exact E|]. now apply parse_game_state_no_payload.
Qed.

(** X2.  Without labeled fence, the payload taken from a message is empty
    or a balanced brace-delimited object that stands in the message right
    after a text without opening brace. *)
Theorem bare_payload_is_empty_or_balanced (message_text payload : pystr) :
  ~ occurs (py "```json") message_text ->
  json_str message_text = Some payload ->
  payload = []
  \/ (balanced_object payload
      /\ exists pre post,
           message_text = pre ++ payload ++ post /\ ~ In (ch "{") pre).
Proof.
  intros Hf. unfold json_str. rewrite (contains_absent _ _ Hf).
  destruct (contains (py "{") message_text) eqn:Hc; [|discriminate].
  intros [= <-].
  destruct (first_occurrence (ch "{") message_text
              (contains_char_true _ _ Hc)) as (pre & rest & -> & Hpre).
  assert (Hfind : find (py "{") (pre ++ ch "{" :: rest) = len pre)
    by (apply (find_char (ch "{")); now apply contains_char_absent).
  rewrite Hfind, slice_from_app. cbn [scan_braces]. rewrite N.eqb_refl.
  pose proof (len_nonneg pre) as Hlen.
  destruct (scan_braces_result rest (len pre + 1) (0 + 1) (len pre))
    as [[Hs _]|(n & Hn & Hs & Hz & Hall)]; [lia| |]; rewrite Hs.
  - left. apply slice_nothing. lia.
  - right.
    replace (len pre + 1 + Z.of_nat n) with (len pre + Z.of_nat (S n)) by lia.
    rewrite slice_after by (simpl; lia). cbn [firstn]. split.
    + split; [now eexists|]. split.
      * rewrite net_depth_cons. change (depth_change (ch "{")) with 1. lia.
      * intros k [Hk1 Hk2]. simpl in Hk2. rewrite length_firstn in Hk2.
        destruct k as [|k]; [lia|]. cbn [firstn]. rewrite net_depth_cons.
        change (depth_change (ch "{")) with 1.
        rewrite firstn_firstn. replace (Nat.min k n) with k by lia.
        specialize (Hall k). lia.
    + exists pre, (skipn n rest). split; [|exact Hpre].
      change (ch "{" :: firstn n rest) with ([ch "{"] ++ firstn n rest).
      rewrite <- app_assoc. simpl. now rewrite firstn_skipn.
Qed.

(** X3.  Without labeled fence the game state is a dict, whatever the
    message: a state that is not a dict can only come from a fenced
    block. *)
Theorem unfenced_state_is_a_dict (message_text : pystr) :
  decode_errors_are_ValueError R ->
  objects_decode_to_dicts R ->
  ~ occurs (py "```json") message_text ->
  exists d, parse_game_state message_text = Ok (JDict d).
Proof.
  intros Herr Hobj Hf.
  destruct (json_str message_text) as [payload|] eqn:E.
  - rewrite (parse_game_state_payload _ _ E).
    destruct (json_loads payload) as [v|e] eqn:L; simpl.
    + destruct (Hobj _ _ L) as [Hne Hd].
      unfold json_str in E. rewrite (contains_absent _ _ Hf) in E.
      destruct (contains (py "{") message_text) eqn:Hc; [|discriminate].
      injection E as <-.
      destruct (slice_at_find (ch "{") message_text
                  (scan_braces
                     (slice_from message_text (find (py "{") message_text))
                     (find (py "{") message_text) 0
                     (find (py "{") message_text)) Hc) as [Hs|Hs].
      * contradiction.
      * destruct (Hd Hs) as [d ->]. now exists d.
    + rewrite (Herr _ _ L). now exists [].
  - rewrite (parse_game_state_no_payload _ E). now exists [].
Qed.

End MoreExtraction.

Lemma clamp_minus_one (s : pystr) : 1 <= len s -> clamp s (-1) = len s - 1.
Proof. intros H. unfold clamp. change (-1 <? 0) with true. cbv zeta iota. lia. Qed.

Lemma find_absent (sub s : pystr) : ~ occurs sub s -> find sub s = -1.
Proof.
  intros H. apply contains_absent in H. unfold contains in H.
  apply negb_false_iff, Z.eqb_eq in H. exact H.
Qed.

Section EdgesOfExtraction.
Context {R : Runtime}.

(** X4.  When the labeled fence is never closed, the text taken is what
    follows the fence without its last character: [find] returns [-1] and
    the slice ends one short of the end of the message. *)
Theorem unclosed_fence_loses_last_character (pre body : pystr) (c : char) :
  let message_text := pre ++ py "```json" ++ body ++ [c] in
  find (py "```json") message_text = len pre ->
  ~ occurs (py "```") (body ++ [c]) ->
  json_str message_text = Some (strip body)
  /\ parse_game_state message_text = or_empty_state (json_loads (strip body)).
Proof.
  intros message_text Hopen Hno.
  pose proof (len_nonneg pre). pose proof (len_nonneg body).
  assert (Hmsg : message_text = (pre ++ py "```json") ++ body ++ [c]).
  { unfold message_text. now rewrite <- app_assoc. }
  assert (Hlen : len (pre ++ py "```json") = len pre + 7).
  { rewrite len_app. reflexivity. }
  assert (Hall : len message_text = len pre + 7 + len body + 1).
  { rewrite Hmsg, len_app, Hlen, len_app. change (len [c]) with 1. lia. }
  assert (E : json_str message_text = Some (strip body)).
  { unfold json_str.
    assert (Hin : contains (py "```json") message_text = true).
    { unfold contains. rewrite Hopen. apply negb_true_iff, Z.eqb_neq. lia. }
    rewrite Hin, Hopen.
    assert (Hend : find_from (py "```") message_text (len pre + 7) = -1).
    { unfold find_from.
      destruct (Z.ltb_spec (len pre + 7) 0); [lia|].
      destruct (Z.ltb_spec (len message_text) (len pre + 7)); [lia|].
      rewrite Hmsg at 1. rewrite <- Hlen, skipn_len_app.
      pose proof (find_absent _ _ Hno) as F. unfold find in F.
      destruct (find_at_shift (py "```") (body ++ [c])
                  (len (pre ++ py "```json"))) as [[_ F1]|[F0 _]]; [exact F1|lia]. }
    rewrite Hend. f_equal. f_equal. unfold slice.
    rewrite clamp_minus_one, clamp_inside by lia.
    rewrite Hmsg at 2. rewrite <- Hlen, skipn_len_app.
    replace (len message_text - 1 - len (pre ++ py "```json")) with (len body)
      by lia.
    apply firstn_len_app. }
  split; [exact E|]. now apply parse_game_state_payload.
Qed.

(** X5.  Without labeled fence, when the first opening brace of the
    message is never closed, the payload is the empty text, whatever
    objects follow that brace; a runtime that does not decode the empty
    text then gives the empty state. *)
Theorem unclosed_brace_gives_empty_payload (pre rest : pystr) :
  ~ occurs (py "```json") (pre ++ rest) ->
  ~ In (ch "{") pre ->
  never_closes rest ->
  json_str (pre ++ rest) = Some []
  /\ (decode_errors_are_ValueError R -> objects_decode_to_dicts R ->
      parse_game_state (pre ++ rest) = Ok (JDict [])).
Proof.
  intros Hf Hpre ([r ->] & Hopen).
  pose proof (len_nonneg pre) as Hlen.
  assert (E : json_str (pre ++ ch "{" :: r) = Some []).
  { unfold json_str. rewrite (contains_absent _ _ Hf).
    assert (Hfind : find (py "{") (pre ++ ch "{" :: r) = len pre)
      by (apply (find_char (ch "{")); now apply contains_char_absent).
    assert (Hc : contains (py "{") (pre ++ ch "{" :: r) = true).
    { unfold contains. rewrite Hfind. apply negb_true_iff, Z.eqb_neq. lia. }
    rewrite Hc, Hfind, slice_from_app. cbn [scan_braces]. rewrite N.eqb_refl.
    destruct (scan_braces_result r (len pre + 1) (0 + 1) (len pre))
      as [[Hs _]|(n & Hn & Hs & Hz & _)]; [lia| |].
    - rewrite Hs. f_equal. apply slice_nothing. lia.
    - exfalso. specialize (Hopen (S n)). cbn [firstn] in Hopen.
      rewrite net_depth_cons in Hopen.
      change (depth_change (ch "{")) with 1 in Hopen.
      simpl List.length in Hopen. lia. }
  split; [exact E|]. intros Herr Hobj.
  rewrite (parse_game_state_payload _ _ E).
  destruct (json_loads []) as [v|e] eqn:L; simpl.
  - destruct (Hobj _ _ L) as [Hne _]. contradiction.
  - now rewrite (Herr _ _ L).
Qed.

End EdgesOfExtraction.

(* ================================================================== *)
(** * More on the Decision Oracle Adapter and the Response Guarantor *)
(* ================================================================== *)

Lemma rfind_at_lower (sub s : pystr) :
  forall i last, rfind_at sub s i last = last \/ i <= rfind_at sub s i last.
Proof.
  induction s as [|c s IH]; intros i last; cbn [rfind_at].
  - destruct (startswith sub []); [right; lia|now left].
  - destruct (startswith sub (c :: s)).
    + right. destruct (IH (i + 1) i); lia.
    + destruct (IH (i + 1) last); [now left|right; lia].
Qed.

Lemma rfind_lower (sub s : pystr) : -1 <= rfind sub s.
Proof. unfold rfind. destruct (rfind_at_lower sub s 0 (-1)); lia. Qed.

Lemma map_result_length {A B} (f : A -> result B) (xs : list A) (ys : list B) :
  map_result f xs = Ok ys -> List.length ys = List.length xs.
Proof.
  revert ys; induction xs as [|x xs IH]; intros ys H; simpl in H.
  - now injection H as <-.
  - destruct (f x); [|discriminate].
    destruct (map_result f xs) as [ys'|]; [|discriminate].
    injection H as <-. simpl. now rewrite (IH ys').
Qed.

Lemma map_result_raises {A B} (f : A -> result B) (P : exception -> Prop)
    (xs : list A) (e : exception) :
  (forall x e, f x = Raise e -> P e) -> map_result f xs = Raise e -> P e.
Proof.
  intros Hf. induction xs as [|x xs IH]; simpl; [discriminate|].
  destruct (f x) as [y|e'] eqn:E.
  - destruct (map_result f xs); [discriminate|]. intros [= <-]. now apply IH.
  - intros [= <-]. now apply (Hf x).
Qed.

Lemma py_iter_raises (q : json) (e : exception) :
  py_iter q = Raise e -> exc_type e = TypeError.
Proof. destruct q; simpl; intros H; try discriminate; now injection H as <-. Qed.

Lemma py_floordiv2_raises (q : json) (e : exception) :
  py_floordiv2 q = Raise e -> exc_type e = TypeError.
Proof. destruct q; simpl; intros H; try discriminate; now injection H as <-. Qed.

Lemma py_sub_raises (q h : json) (e : exception) :
  py_sub q h = Raise e -> exc_type e = TypeError.
Proof.
  unfold py_sub. destruct (as_int q), (as_int h), q, h; intros H;
    try discriminate; now injection H as <-.
Qed.

(** The floor division stops at the first quantity that is not a number. *)
Lemma floordiv_needs_numbers (qs : list json) :
  forallb is_number qs = false ->
  exists e, map_result py_floordiv2 qs = Raise e /\ exc_type e = TypeError.
Proof.
  induction qs as [|q qs IH]; simpl; [discriminate|].
  intros H. apply andb_false_iff in H.
  destruct (is_number q) eqn:Hq.
  - destruct H as [H|H]; [discriminate|]. destruct (IH H) as (e & He & Ht).
    destruct q; try discriminate; simpl; rewrite He; now exists e.
  - destruct q; try discriminate; simpl; eexists; split; reflexivity.
Qed.

Section MoreDecisions.
Context {R : Runtime}.

Lemma user_prompt_builds (game_state : json) (a : action) :
  prompt_builds a game_state = true ->
  exists prompt, user_prompt game_state a = Ok prompt.
Proof.
  intros H. destruct game_state as [| | | | | |d]; try discriminate H.
  unfold user_prompt. rewrite !py_get_dict.
  cbn [bind ret Monad_result rbind].
  cbn [prompt_builds] in H.
  destruct a; try (eexists; reflexivity).
  destruct (lookup (py "current_offer") d) as [[| | | | | |o]|];
    try discriminate; rewrite !py_get_dict; cbn [rbind]; eexists; reflexivity.
Qed.

Lemma user_prompt_fails (game_state : json) (a : action) :
  prompt_builds a game_state = false ->
  exists e, user_prompt game_state a = Raise e /\ exc_type e = AttributeError.
Proof.
  intros H. unfold user_prompt.
  destruct game_state as [| | | | | |d];
    try (cbn [py_get bind Monad_result rbind]; eexists; split; reflexivity).
  rewrite !py_get_dict. cbn [bind ret Monad_result rbind].
  cbn [prompt_builds] in H.
  destruct a; try discriminate H.
  destruct (lookup (py "current_offer") d) as [[| | | | | |o]|];
    try discriminate H;
    cbn [py_get bind Monad_result rbind]; eexists; split; reflexivity.
Qed.

(** X6.  [call_claude] raises exactly when it cannot build its prompt:
    the game state is not a dict, or an offer is answered and
    [current_offer] is not a dict.  It then raises an [AttributeError]
    before the oracle is called; in every other case it calls the oracle
    once and returns. *)
Theorem call_claude_raises_only_before_the_call
    (game_state : json) (a : action) (message_text : pystr) :
  (prompt_builds a game_state = true ->
   exists prompt result,
     call_claude game_state a message_text = Run [prompt] (Ok result))
  /\ (prompt_builds a game_state = false ->
      exists e,
        call_claude game_state a message_text = Run [] (Raise e)
        /\ exc_type e = AttributeError).
Proof.
  split; intros H.
  - destruct (user_prompt_builds _ _ H) as [prompt Hp].
    destruct (call_claude_returns _ _ message_text _ Hp) as [result Hr].
    now exists prompt, result.
  - destruct (user_prompt_fails _ _ H) as (e & He & Ht).
    exists e. split; [now apply call_claude_no_prompt|exact Ht].
Qed.

(** X7.  When the trimmed reply does not start with an opening brace and
    its last closing brace (if any) comes before its first opening brace,
    nothing is selected: [json.loads] is given the empty text, and the
    result is a failure descriptor when the empty text does not decode. *)
Theorem closing_brace_before_opening_selects_nothing
    (game_state : json) (a : action) (m prompt reply : pystr) :
  user_prompt game_state a = Ok prompt ->
  messages_create prompt = Ok reply ->
  let t := strip reply in
  startswith (py "{") t = false ->
  contains (py "{") t = true ->
  rfind (py "}") t < find (py "{") t ->
  slice t (find (py "{") t) (rfind (py "}") t + 1) = []
  /\ call_claude game_state a m = Run [prompt] (Ok (or_failure (json_loads [])))
  /\ (objects_decode_to_dicts R ->
      exists e, call_claude game_state a m = Run [prompt] (Ok (failure_descriptor e))).
Proof.
  intros Hp Ho t Hs Hc Hlt.
  assert (E : slice t (find (py "{") t) (rfind (py "}") t + 1) = []).
  { apply slice_nothing. pose proof (contains_find _ _ Hc).
    pose proof (rfind_lower (py "}") t).
    rewrite (clamp_inside t (find (py "{") t)) by assumption.
    unfold clamp. destruct (Z.ltb_spec (rfind (py "}") t + 1) 0); lia. }
  assert (Hcall : call_claude game_state a m
                  = Run [prompt] (Ok (or_failure (json_loads [])))).
  { rewrite (call_claude_reply _ _ m _ _ Hp Ho). cbv zeta. fold t.
    now rewrite Hs, Hc, E. }
  split; [exact E|]. split; [exact Hcall|].
  intros Hobj. rewrite Hcall.
  destruct (json_loads []) as [v|e] eqn:L.
  - destruct (Hobj _ _ L) as [Hne _]. contradiction.
  - now exists e.
Qed.

(** X8.  When the action is known and the oracle's trimmed reply starts
    with an opening brace and decodes to a dict without [error] key, that
    dict is the decision, unchanged, whatever its fields are; the oracle
    has been called once. *)
Theorem oracle_object_is_the_decision
    (message_text : pystr) (game_state : json) (prompt reply : pystr)
    (d : pydict) :
  get_action_type message_text <> UNKNOWN ->
  parse_game_state message_text = Ok game_state ->
  user_prompt game_state (get_action_type message_text) = Ok prompt ->
  messages_create prompt = Ok reply ->
  startswith (py "{") (strip reply) = true ->
  json_loads (strip reply) = Ok (JDict d) ->
  lookup (py "error") d = None ->
  handle_negotiation_message message_text = Run [prompt] (Ok (JDict d)).
Proof.
  intros Ha Hgs Hp Ho Hs Hd He.
  apply (handle_passes_through _ game_state); try assumption.
  rewrite (call_claude_reply _ _ message_text _ _ Hp Ho). cbv zeta.
  now rewrite Hs, Hd.
Qed.

(** X9.  When a proposal is requested, the game state has no
    [quantities] and [call_claude] returns a failure descriptor, the
    fallback splits the default quantities [1, 1, 1]: nothing for the
    agent, everything for the other side. *)
Theorem missing_quantities_default_to_ones
    (message_text : pystr) (state : pydict) (log : list pystr)
    (failure : pydict) (cause : json) :
  get_action_type message_text = PROPOSE ->
  parse_game_state message_text = Ok (JDict state) ->
  lookup (py "quantities") state = None ->
  call_claude (JDict state) PROPOSE message_text = Run log (Ok (JDict failure)) ->
  lookup (py "error") failure = Some cause ->
  handle_negotiation_message message_text
  = Run log
      (Ok (JDict [(py "allocation_self", JList [JInt 0; JInt 0; JInt 0]);
                  (py "allocation_other", JList [JInt 1; JInt 1; JInt 1]);
                  (py "reason",
                   JStr (py "Fallback proposal due to error: " ++ py_str cause))])).
Proof.
  intros Ha Hgs Hq Hcall Hc.
  apply (proposal_on_failure message_text state log failure cause
           [JInt 1; JInt 1; JInt 1]); try assumption; try reflexivity.
  now rewrite Hq.
Qed.

End MoreDecisions.

Section Effects.
Context {R : Runtime}.

Lemma calls_bind {A B} (m : Py A) (k : A -> Py B) :
  calls (bind m k)
  = calls m ++ match outcome m with Ok a => calls (k a) | Raise _ => [] end.
Proof.
  destruct m as [l [a|e]]; cbn; [reflexivity|now rewrite app_nil_r].
Qed.

Lemma calls_lift {A} (r : result A) : calls (lift r) = [].
Proof. reflexivity. Qed.

Lemma outcome_lift {A} (r : result A) : outcome (lift r) = r.
Proof. reflexivity. Qed.

(** A chain of steps that call nothing calls nothing. *)
Lemma calls_bind_lift {A B} (r : result A) (k : A -> Py B) :
  (forall a, calls (k a) = []) -> calls (bind (lift r) k) = [].
Proof.
  intros Hk. rewrite calls_bind, calls_lift, outcome_lift.
  destruct r; [apply Hk|reflexivity].
Qed.

(** The log of a run of the handler: empty, or the one prompt built from
    the extracted state. *)
Lemma handler_log (message_text : pystr) :
  calls (handle_negotiation_message message_text) = []
  \/ exists game_state prompt,
       parse_game_state message_text = Ok game_state
       /\ get_action_type message_text <> UNKNOWN
       /\ user_prompt game_state (get_action_type message_text) = Ok prompt
       /\ calls (handle_negotiation_message message_text) = [prompt].
Proof.
  unfold handle_negotiation_message. cbv zeta.
  destruct (parse_game_state message_text) as [game_state|e] eqn:Hgs;
    [|now left].
  rewrite bind_lift_ok.
  destruct (get_action_type message_text) eqn:Ea; [| |now left];
    (match goal with
     | |- context [call_claude game_state ?a message_text] =>
         destruct (user_prompt game_state a) as [prompt|e] eqn:Hp
     end;
     [|left; now rewrite (call_claude_no_prompt _ _ _ _ Hp), bind_run_raise]);
    destruct (call_claude_returns _ _ message_text _ Hp) as [result Hr];
    right; exists game_state, prompt;
    (split; [reflexivity|]); (split; [discriminate|]); (split; [exact Hp|]);
    rewrite Hr, calls_bind; cbn [calls outcome];
    match goal with
    | |- _ ++ ?rest = _ =>
        assert (Hquiet : rest = [])
          by (apply calls_bind_lift; intros [|]; [|reflexivity];
              repeat (apply calls_bind_lift; intros ?); reflexivity);
        now rewrite Hquiet
    end.
Qed.

(** X10.  Whatever the message, the runtime and the outcome, one run of
    [handle_negotiation_message] calls the oracle at most once (there is
    no retry), and never for an unknown action; the prompt it sends is the
    one built from the extracted state. *)
Theorem at_most_one_oracle_call (message_text : pystr) :
  (List.length (calls (handle_negotiation_message message_text)) <= 1)%nat
  /\ (get_action_type message_text = UNKNOWN ->
      calls (handle_negotiation_message message_text) = [])
  /\ (forall prompt,
        In prompt (calls (handle_negotiation_message message_text)) ->
        exists game_state,
          parse_game_state message_text = Ok game_state
          /\ user_prompt game_state (get_action_type message_text) = Ok prompt).
Proof.
  destruct (handler_log message_text)
    as [H|(game_state & prompt & Hgs & Ha & Hp & H)]; rewrite H.
  - split; [simpl; lia|]. split; [reflexivity|]. intros prompt [].
  - split; [simpl; lia|]. split; [intros E; contradiction|].
    intros prompt' [<-|[]]. now exists game_state.
Qed.

Lemma user_prompt_state (game_state : json) (a : action) (prompt : pystr) :
  user_prompt game_state a = Ok prompt -> exists d, game_state = JDict d.
Proof.
  intros H. destruct game_state as [| | | | | |d]; try discriminate H.
  now exists d.
Qed.

Lemma user_prompt_raises (game_state : json) (a : action) (e : exception) :
  user_prompt game_state a = Raise e -> exc_type e = AttributeError.
Proof.
  intros H. destruct (prompt_builds a game_state) eqn:Hb.
  - destruct (user_prompt_builds _ _ Hb) as [p Hp]. congruence.
  - destruct (user_prompt_fails _ _ Hb) as (e' & He & Ht). congruence.
Qed.

(** What the handler does with a failure descriptor when a proposal is
    requested, step by step. *)
Lemma proposal_steps (message_text : pystr) (state : pydict)
    (log : list pystr) (failure : pydict) (cause : json) :
  get_action_type message_text = PROPOSE ->
  parse_game_state message_text = Ok (JDict state) ->
  call_claude (JDict state) PROPOSE message_text = Run log (Ok (JDict failure)) ->
  lookup (py "error") failure = Some cause ->
  let quantities := match lookup (py "quantities") state with
                    | Some x => x
                    | None => JList [JInt 1; JInt 1; JInt 1]
                    end in
  handle_negotiation_message message_text
  = Run log
      (match py_iter quantities with
       | Raise e => Raise e
       | Ok qs =>
           match map_result py_floordiv2 qs with
           | Raise e => Raise e
           | Ok half =>
               match map_result (fun qh => py_sub (fst qh) (snd qh))
                       (combine qs half) with
               | Raise e => Raise e
               | Ok other => Ok (fallback_proposal half other (py_str cause))
               end
           end
       end).
Proof.
  intros Ha Hgs Hcall Hc quantities. unfold handle_negotiation_message. cbv zeta.
  rewrite Hgs, Ha, bind_lift_ok. cbv iota. rewrite Hcall, bind_run_ok.
  cbn [py_in]. rewrite Hc, bind_lift_ok, py_get_dict, bind_lift_ok.
  fold quantities.
  destruct (py_iter quantities) as [qs|e];
    [rewrite bind_lift_ok|now rewrite bind_lift_raise; cbn; rewrite app_nil_r].
  destruct (map_result py_floordiv2 qs) as [half|e];
    [rewrite bind_lift_ok|now rewrite bind_lift_raise; cbn; rewrite app_nil_r].
  destruct (map_result _ (combine qs half)) as [other|e];
    [rewrite bind_lift_ok|now rewrite bind_lift_raise; cbn; rewrite app_nil_r].
  rewrite py_get_dict, Hc, bind_lift_ok.
  cbn [ret Monad_Py lift calls outcome]. now rewrite app_nil_r.
Qed.

(** X11.  The two ways in which [handle_negotiation_message] raises, for a
    runtime whose decoder behaves as [json.loads]: an [AttributeError]
    before any oracle call (the prompt cannot be built), or a [TypeError]
    after the one oracle call, when a proposal is requested and the
    fallback cannot split the quantities.  Answering an offer never
    raises once the oracle has been called. *)
Theorem handler_raises_in_two_ways
    (message_text : pystr) (log : list pystr) (e : exception) :
  decode_errors_are_ValueError R ->
  objects_decode_to_dicts R ->
  handle_negotiation_message message_text = Run log (Raise e) ->
  (exc_type e = AttributeError /\ log = []
   /\ get_action_type message_text <> UNKNOWN)
  \/ (exc_type e = TypeError /\ (exists prompt, log = [prompt])
      /\ get_action_type message_text = PROPOSE).
Proof.
  intros Herr Hobj H.
  destruct (parse_game_state_returns message_text Herr) as [game_state Hgs].
  destruct (get_action_type message_text) eqn:Ea.
  - (* PROPOSE *)
    destruct (user_prompt game_state PROPOSE) as [prompt|e'] eqn:Hp.
    + destruct (user_prompt_state _ _ _ Hp) as [state ->].
      destruct (call_claude_returns_dict _ _ message_text _ Hobj Hp) as [d Hcall].
      destruct (lookup (py "error") d) as [cause|] eqn:Hc.
      * rewrite (proposal_steps _ _ _ _ _ Ea Hgs Hcall Hc) in H. cbv zeta in H.
        injection H as <- H. right. split; [|split; [now exists prompt|reflexivity]].
        destruct (py_iter _) as [qs|e1] eqn:E1;
          [|injection H as <-; now apply (py_iter_raises _ _ E1)].
        destruct (map_result py_floordiv2 qs) as [half|e2] eqn:E2;
          [|injection H as <-;
            now apply (map_result_raises _ _ _ _ py_floordiv2_raises E2)].
        destruct (map_result _ (combine qs half)) as [other|e3] eqn:E3;
          [discriminate|injection H as <-].
        apply (map_result_raises _ (fun e => exc_type e = TypeError) _ _
                 (fun x e => py_sub_raises (fst x) (snd x) e) E3).
      * rewrite (handle_passes_through _ (JDict state) [prompt] d) in H;
          rewrite ?Ea; try assumption; discriminate.
    + unfold handle_negotiation_message in H. cbv zeta in H.
      rewrite Hgs, Ea, bind_lift_ok in H. cbv iota in H.
      rewrite (call_claude_no_prompt _ _ _ _ Hp), bind_run_raise in H.
      injection H as <- <-. left.
      split; [now apply (user_prompt_raises _ _ _ Hp)|]. split; [reflexivity|discriminate].
  - (* ACCEPT_OR_REJECT *)
    destruct (user_prompt game_state ACCEPT_OR_REJECT) as [prompt|e'] eqn:Hp.
    + destruct (call_claude_returns_dict _ _ message_text _ Hobj Hp) as [d Hcall].
      destruct (lookup (py "error") d) as [cause|] eqn:Hc.
      * rewrite (verdict_on_failure _ _ _ _ _ Ea Hgs Hcall Hc) in H. discriminate.
      * rewrite (handle_passes_through _ game_state [prompt] d) in H;
          rewrite ?Ea; try assumption; discriminate.
    + unfold handle_negotiation_message in H. cbv zeta in H.
      rewrite Hgs, Ea, bind_lift_ok in H. cbv iota in H.
      rewrite (call_claude_no_prompt _ _ _ _ Hp), bind_run_raise in H.
      injection H as <- <-. left.
      split; [now apply (user_prompt_raises _ _ _ Hp)|]. split; [reflexivity|discriminate].
  - (* UNKNOWN *)
    unfold handle_negotiation_message in H. cbv zeta in H.
    rewrite Hgs, Ea, bind_lift_ok in H. discriminate.
Qed.

(** X12.  When a proposal is requested and [call_claude] returns a
    failure descriptor, the fallback returns exactly for the [quantities]
    that are a list of numbers (or an empty string or dict), with
    allocations as long as the list; for any other [quantities] the
    handler raises a [TypeError], after the oracle call. *)
Theorem fallback_needs_numbers
    (message_text : pystr) (state : pydict) (quantities : json)
    (log : list pystr) (failure : pydict) (cause : json) :
  get_action_type message_text = PROPOSE ->
  parse_game_state message_text = Ok (JDict state) ->
  lookup (py "quantities") state = Some quantities ->
  call_claude (JDict state) PROPOSE message_text = Run log (Ok (JDict failure)) ->
  lookup (py "error") failure = Some cause ->
  (splittable quantities = true ->
   exists half other,
     handle_negotiation_message message_text
     = Run log (Ok (fallback_proposal half other (py_str cause)))
     /\ forall qs, quantities = JList qs ->
          List.length half = List.length qs /\ List.length other = List.length qs)
  /\ (splittable quantities = false ->
      exists e,
        handle_negotiation_message message_text = Run log (Raise e)
        /\ exc_type e = TypeError).
Proof.
  intros Ha Hgs Hq Hcall Hc.
  pose proof (proposal_steps _ _ _ _ _ Ha Hgs Hcall Hc) as H. cbv zeta in H.
  rewrite Hq in H. rewrite H. clear H. split; intros Hs.
  - destruct quantities as [| | | |[|c s]|qs|[|kv d]]; try discriminate Hs.
    + exists [], []. split; [reflexivity|]. intros qs [=].
    + cbn [splittable] in Hs. cbn [py_iter].
      destruct (even_split_returns qs Hs) as (half & other & Hh & Ho).
      rewrite Hh, Ho. exists half, other. split; [reflexivity|].
      intros qs' [= <-]. pose proof (map_result_length _ _ _ Hh) as Lh.
      pose proof (map_result_length _ _ _ Ho) as Lo.
      rewrite length_combine in Lo. split; [exact Lh|lia].
    + exists [], []. split; [reflexivity|]. intros qs [=].
  - destruct quantities as [| | | |[|c s]|qs|[|[k v] d]]; try discriminate Hs;
      try (cbn [py_iter]; eexists; split; reflexivity).
    cbn [splittable] in Hs. cbn [py_iter].
    destruct (floordiv_needs_numbers qs Hs) as (e & He & Ht).
    rewrite He. now exists e.
Qed.

End Effects.

(* ================================================================== *)
(** * The executor *)
(* ================================================================== *)

Lemma count_app (p : effect -> bool) (l1 l2 : list effect) :
  count p (l1 ++ l2) = (count p l1 + count p l2)%nat.
Proof. unfold count. now rewrite filter_app, length_app. Qed.

Lemma count_asked (p : list pystr) :
  count is_asked (map Asked p) = List.length p
  /\ count is_completed (map Asked p) = 0%nat.
Proof.
  unfold count. induction p as [|x p [IH1 IH2]]; [now split|].
  simpl. now rewrite IH1, IH2.
Qed.

Lemma count_cons (p : effect -> bool) (x : effect) (l : list effect) :
  count p (x :: l) = ((if p x then 1 else 0) + count p l)%nat.
Proof. unfold count. simpl. now destruct (p x). Qed.

Section Execution.
Context {R : Runtime} {S : Server}.

(** X13.  A request without message is answered by nobody: the handler is
    run on the input (and may call the oracle), but no task is created and
    no status is sent, whatever the handler returns or raises, and
    [execute] returns. *)
Theorem request_without_message_sends_nothing (message_text : pystr) :
  has_message = false ->
  get_user_input = Ok message_text ->
  execute
  = Did (map Asked (calls (handle_negotiation_message message_text))) (Ok tt).
Proof.
  intros Hm Hi. unfold execute, guarded, quietly, of_py, after_effects.
  rewrite Hi, Hm. cbn [effects returned app].
  destruct (outcome (handle_negotiation_message message_text));
    cbn; rewrite ?app_nil_r; reflexivity.
Qed.

(** X14.  A request with a message for which the handler returns a
    decision: the task is put on the queue, then the oracle is consulted
    (if at all), then one final status carries [json.dumps(decision,
    indent=2)]. *)
Theorem decision_is_sent_as_final_status
    (message_text : pystr) (t : task) (log : list pystr) (decision : json) :
  has_message = true ->
  get_user_input = Ok message_text ->
  new_task = Ok t ->
  enqueue_event t = Ok tt ->
  handle_negotiation_message message_text = Run log (Ok decision) ->
  update_status t (json_dumps_indent decision) = Ok tt ->
  execute
  = Did (Enqueued t :: map Asked log ++ [Completed t (json_dumps_indent decision)])
        (Ok tt).
Proof.
  intros Hm Hi Ht Hq Hh Hu.
  unfold execute, guarded, quietly, of_py, after_effects, enqueue, send_status.
  rewrite Hi, Hm. cbn [effects returned app]. rewrite Ht. cbn [effects returned app].
  rewrite Hq. cbn [effects returned app]. rewrite Hh. cbn [calls outcome].
  rewrite Hu. cbn. rewrite ?app_nil_r. reflexivity.
Qed.

(** X15.  A request with a message for which the handler raises: the
    exception does not leave [execute]; the client gets one final status
    with [json.dumps] of the error text and the action [WALK]. *)
Theorem handler_exception_is_sent_as_walk
    (message_text : pystr) (t : task) (log : list pystr) (e : exception) :
  has_message = true ->
  get_user_input = Ok message_text ->
  new_task = Ok t ->
  enqueue_event t = Ok tt ->
  handle_negotiation_message message_text = Run log (Raise e) ->
  update_status t
    (json_dumps (JDict [(py "error", JStr (exc_str e));
                        (py "action", JStr (py "WALK"))])) = Ok tt ->
  execute
  = Did (Enqueued t :: map Asked log
           ++ [Completed t
                 (json_dumps (JDict [(py "error", JStr (exc_str e));
                                     (py "action", JStr (py "WALK"))]))])
        (Ok tt).
Proof.
  intros Hm Hi Ht Hq Hh Hu.
  unfold execute, guarded, quietly, of_py, after_effects, enqueue, send_status,
    on_exception.
  rewrite Hi, Hm. cbn [effects returned app]. rewrite Ht. cbn [effects returned app].
  rewrite Hq. cbn [effects returned app]. rewrite Hh. cbn [calls outcome].
  unfold send_status. rewrite Hu. cbn. reflexivity.
Qed.

(** X16.  A request whose task cannot be announced gets no answer: when
    reading the input, creating the task or putting it on the queue
    raises, the exception is swallowed, the handler is not run and nothing
    is sent. *)
Theorem early_failure_is_silent :
  has_message = true ->
  (exists e, get_user_input = Raise e)
  \/ (exists e, new_task = Raise e)
  \/ (exists t e, new_task = Ok t /\ enqueue_event t = Raise e) ->
  execute = Did [] (Ok tt).
Proof.
  intros Hm H.
  unfold execute, guarded, quietly, of_py, after_effects, enqueue, on_exception.
  destruct get_user_input as [message_text|e0] eqn:Hi; [|reflexivity].
  rewrite Hm. cbn [effects returned app].
  destruct H as [[e H]|[[e H]|(t & e & Ht & Hq)]]; [discriminate| |].
  - now rewrite H.
  - rewrite Ht. cbn [effects returned app]. now rewrite Hq.
Qed.

(** X17.  [execute] raises only when reporting an error fails: when it
    raises, a status update carrying a WALK response has raised that
    exception. *)
Theorem execute_raises_only_while_reporting (e : exception) :
  returned execute = Raise e ->
  exists t e0,
    update_status t
      (json_dumps (JDict [(py "error", JStr (exc_str e0));
                          (py "action", JStr (py "WALK"))])) = Raise e.
Proof.
  unfold execute, guarded, quietly, of_py, after_effects, enqueue, send_status,
    on_exception.
  destruct get_user_input as [message_text|e0]; [|discriminate].
  cbn [effects returned app].
  destruct has_message.
  - destruct new_task as [t|e1]; [|discriminate]. cbn [effects returned app].
    destruct (enqueue_event t) as [[]|e2]; [|discriminate].
    cbn [effects returned app].
    destruct (handle_negotiation_message message_text) as [log [decision|e3]];
      cbn [calls outcome effects returned].
    + destruct (update_status t (json_dumps_indent decision)) as [[]|e4] eqn:Hu;
        cbn [effects returned]; [discriminate|].
      unfold send_status. intros H. cbn [returned] in H. now exists t, e4.
    + unfold send_status. intros H. cbn [returned] in H. now exists t, e3.
  - destruct (outcome (handle_negotiation_message message_text)); discriminate.
Qed.

(** X18.  One run of [execute] sends at most one final status and calls
    the oracle at most once, whatever the framework and the handler do. *)
Theorem execute_sends_at_most_one_status :
  (count is_completed (effects execute) <= 1)%nat
  /\ (count is_asked (effects execute) <= 1)%nat.
Proof.
  unfold execute, guarded, quietly, of_py, after_effects, enqueue, send_status,
    on_exception.
  destruct get_user_input as [message_text|e0]; [|cbn; lia].
  assert (Hone : (List.length (calls (handle_negotiation_message message_text))
                  <= 1)%nat)
    by (destruct (handler_log message_text) as [H|(gs & p & _ & _ & _ & H)];
        rewrite H; simpl; lia).
  cbn [effects returned app].
  destruct (handle_negotiation_message message_text) as [log outcome_].
  cbn [calls outcome] in *.
  destruct (count_asked log) as [Ha Hc].
  destruct has_message.
  - destruct new_task as [t|e1]; [|cbn; lia]. cbn [effects returned app].
    destruct (enqueue_event t) as [[]|e2]; [|cbn; lia].
    cbn [effects returned app]. rewrite !count_cons, !count_app, Ha, Hc.
    destruct outcome_ as [decision|e3].
    + destruct (update_status t (json_dumps_indent decision)) as [[]|e4];
        cbn [effects returned]; rewrite ?count_app.
      * cbn. lia.
      * unfold send_status.
        destruct (update_status t _) as [[]|e5]; cbn; lia.
    + unfold send_status. destruct (update_status t _) as [[]|e5]; cbn; lia.
  - cbn [effects returned]. rewrite !count_app, Ha, Hc.
    destruct outcome_; cbn; lia.
Qed.

End Execution.

(* ================================================================== *)
(** * The settings of [main] *)
(* ================================================================== *)

(** X19.  The port taken from the environment is converted when the
    options are declared, so a value of [AGENT_PORT] (or, when that is not
    set, of [PORT]) that [int] rejects stops [main] with that error
    whatever the command line holds, even a [--port]. *)
Theorem malformed_port_variable_stops_main
    (int : pystr -> result Z) (env : environ) (args : command_line)
    (text : pystr) (e : exception) :
  env (py "AGENT_PORT") = Some text
  \/ (env (py "AGENT_PORT") = None /\ env (py "PORT") = Some text) ->
  int text = Raise e ->
  settings int env args = Raise e.
Proof.
  intros H He. unfold settings, environ_get.
  destruct H as [H|[H1 H2]]; [rewrite H|rewrite H1, H2]; now rewrite He.
Qed.

(* ================================================================== *)
(** * Examples of the further properties *)
(* ================================================================== *)

Lemma unclosed_brace_rest_never_closes : never_closes unclosed_brace_rest.
Proof.
  split; [eexists; reflexivity|].
  intros k [Hlo Hhi].
  assert (L : List.length unclosed_brace_rest = 23%nat) by reflexivity.
  rewrite L in Hhi.
  destruct k as [|k]; [lia|].
  do 23 (destruct k as [|k]; [reflexivity|]). lia.
Qed.

(** Scenario C has no payload (X1). *)
Lemma scenario_C_has_no_payload :
  json_str scenario_C = None
  /\ parse_game_state (R := oracle_down) scenario_C = Ok (JDict []).
Proof.
  apply (message_without_payload_has_empty_state (R := oracle_down) scenario_C).
  - apply absent_of_contains. vm_compute. reflexivity.
  - apply contains_char_false. vm_compute. reflexivity.
Defined.

(** The payload of a message with a bare object (X2). *)
Lemma small_object_is_the_payload :
  small_object = []
  \/ (balanced_object small_object
      /\ exists pre post,
           with_closing_brace ++ small_object ++ trailing_text
           = pre ++ small_object ++ post
           /\ ~ In (ch "{") pre).
Proof.
  apply (bare_payload_is_empty_or_balanced
           (with_closing_brace ++ small_object ++ trailing_text) small_object).
  - apply absent_of_contains. vm_compute. reflexivity.
  - vm_compute. reflexivity.
Defined.

(** The state of a message without fence is a dict (X3). *)
Lemma offer_is_a_number_state :
  exists d, parse_game_state (R := oracle_down) offer_is_a_number = Ok (JDict d).
Proof.
  apply (unfenced_state_is_a_dict (R := oracle_down) offer_is_a_number).
  - apply cpython_decode_errors.
  - apply cpython_objects.
  - apply absent_of_contains. vm_compute. reflexivity.
Defined.

(** A fence that is not closed: the closing brace of the object is lost
    and with it the state (X4). *)
Lemma unclosed_fence_state :
  parse_game_state (R := oracle_down) unclosed_fence = Ok (JDict []).
Proof.
  refine (eq_trans
            (proj2 (unclosed_fence_loses_last_character (R := oracle_down)
                      unclosed_fence_pre unclosed_fence_body (ch "}") _ _)) _).
  - vm_compute. reflexivity.
  - apply absent_of_contains. vm_compute. reflexivity.
  - vm_compute. reflexivity.
Defined.

(** A brace that is not closed: no payload, no state (X5). *)
Lemma unclosed_brace_state :
  json_str (py "see " ++ unclosed_brace_rest) = Some []
  /\ (decode_errors_are_ValueError oracle_down ->
      objects_decode_to_dicts oracle_down ->
      parse_game_state (R := oracle_down) (py "see " ++ unclosed_brace_rest)
      = Ok (JDict [])).
Proof.
  apply (unclosed_brace_gives_empty_payload (R := oracle_down)
           (py "see ") unclosed_brace_rest).
  - apply absent_of_contains. vm_compute. reflexivity.
  - apply contains_char_false. vm_compute. reflexivity.
  - apply unclosed_brace_rest_never_closes.
Defined.

(** An offer that is a number: no prompt, no call (X6). *)
Lemma number_offer_stops_call_claude :
  exists e,
    call_claude (R := oracle_down) state_with_number_offer ACCEPT_OR_REJECT
      offer_is_a_number
    = Run [] (Raise e)
    /\ exc_type e = AttributeError.
Proof.
  apply (proj2 (call_claude_raises_only_before_the_call (R := oracle_down)
                  state_with_number_offer ACCEPT_OR_REJECT offer_is_a_number)).
  vm_compute. reflexivity.
Defined.

(** A reply whose braces are out of order (X7). *)
Lemma braces_out_of_order_select_nothing :
  exists e,
    call_claude (R := oracle_says braces_out_of_order)
      scenario_B_state ACCEPT_OR_REJECT scenario_B
    = Run [prompt_for oracle_down scenario_B] (Ok (failure_descriptor e)).
Proof.
  apply (proj2 (proj2 (closing_brace_before_opening_selects_nothing
                         (R := oracle_says braces_out_of_order)
                         scenario_B_state ACCEPT_OR_REJECT scenario_B
                         (prompt_for oracle_down scenario_B) braces_out_of_order
                         ltac:(vm_compute; reflexivity)
                         ltac:(vm_compute; reflexivity)
                         ltac:(vm_compute; reflexivity)
                         ltac:(vm_compute; reflexivity)
                         ltac:(vm_compute; reflexivity)))).
  apply cpython_objects.
Defined.

(** Scenario B: the oracle's verdict is the decision (X8). *)
Lemma scenario_B_verdict :
  handle_negotiation_message (R := oracle_says scenario_B_reply) scenario_B
  = Run [prompt_for oracle_down scenario_B]
      (Ok (JDict [(py "accept", JBool true);
                  (py "reason", JStr (py "good value"))])).
Proof.
  apply (oracle_object_is_the_decision (R := oracle_says scenario_B_reply)
           scenario_B scenario_B_state (prompt_for oracle_down scenario_B)
           scenario_B_reply).
  - vm_compute. discriminate.
  - vm_compute. reflexivity.
  - vm_compute. reflexivity.
  - vm_compute. reflexivity.
  - vm_compute. reflexivity.
  - vm_compute. reflexivity.
  - vm_compute. reflexivity.
Defined.

(** A proposal without any state, oracle down (X9). *)
Lemma proposal_without_state_oracle_down :
  handle_negotiation_message (R := oracle_down) proposal_without_state
  = Run [prompt_for oracle_down proposal_without_state]
      (Ok (JDict [(py "allocation_self", JList [JInt 0; JInt 0; JInt 0]);
                  (py "allocation_other", JList [JInt 1; JInt 1; JInt 1]);
                  (py "reason",
                   JStr (py "Fallback proposal due to error: Connection error."))])).
Proof.
  apply (missing_quantities_default_to_ones (R := oracle_down)
           proposal_without_state []
           [prompt_for oracle_down proposal_without_state]
           [(py "error", JStr (py "Connection error."))]
           (JStr (py "Connection error."))).
  - vm_compute. reflexivity.
  - vm_compute. reflexivity.
  - vm_compute. reflexivity.
  - vm_compute. reflexivity.
  - vm_compute. reflexivity.
Defined.

(** An offer that is a number: the first way of raising (X11). *)
Lemma offer_is_a_number_raises :
  (exc_type (Exc AttributeError (py "'int' object has no attribute 'get'"))
   = AttributeError
   /\ @nil pystr = []
   /\ get_action_type offer_is_a_number <> UNKNOWN)
  \/ (exc_type (Exc AttributeError (py "'int' object has no attribute 'get'"))
      = TypeError
      /\ (exists prompt, @nil pystr = [prompt])
      /\ get_action_type offer_is_a_number = PROPOSE).
Proof.
  apply (handler_raises_in_two_ways (R := oracle_down) offer_is_a_number []
           (Exc AttributeError (py "'int' object has no attribute 'get'"))).
  - apply cpython_decode_errors.
  - apply cpython_objects.
  - vm_compute. reflexivity.
Defined.

(** Quantities that are a number: the second way of raising (X12). *)
Lemma quantities_is_a_number_raises :
  exists e,
    handle_negotiation_message (R := oracle_down) quantities_is_a_number
    = Run [prompt_for oracle_down quantities_is_a_number] (Raise e)
    /\ exc_type e = TypeError.
Proof.
  apply (proj2 (fallback_needs_numbers (R := oracle_down)
                  quantities_is_a_number [(py "quantities", JInt 5)] (JInt 5)
                  [prompt_for oracle_down quantities_is_a_number]
                  [(py "error", JStr (py "Connection error."))]
                  (JStr (py "Connection error."))
                  ltac:(vm_compute; reflexivity)
                  ltac:(vm_compute; reflexivity)
                  ltac:(vm_compute; reflexivity)
                  ltac:(vm_compute; reflexivity)
                  ltac:(vm_compute; reflexivity))).
  reflexivity.
Defined.

(** Scenario A sent without message: the oracle is asked, nobody is
    answered (X13). *)
Lemma scenario_A_without_message :
  execute (R := oracle_down) (S := willing_server scenario_A false)
  = Did [Asked (prompt_for oracle_down scenario_A)] (Ok tt).
Proof.
  refine (eq_trans
            (request_without_message_sends_nothing (R := oracle_down)
               (S := willing_server scenario_A false) scenario_A _ _) _).
  - reflexivity.
  - reflexivity.
  - vm_compute. reflexivity.
Defined.

(** Scenario A sent with a message, oracle down (X14). *)
Lemma scenario_A_is_answered :
  execute (R := oracle_down) (S := willing_server scenario_A true)
  = Did [Enqueued example_task;
         Asked (prompt_for oracle_down scenario_A);
         Completed example_task
           (Dumps.dumps_indent2
              (fallback_proposal [JInt 1; JInt 2] [JInt 2; JInt 3]
                 (py "Connection error.")))]
        (Ok tt).
Proof.
  apply (decision_is_sent_as_final_status (R := oracle_down)
           (S := willing_server scenario_A true) scenario_A example_task
           [prompt_for oracle_down scenario_A]
           (fallback_proposal [JInt 1; JInt 2] [JInt 2; JInt 3]
              (py "Connection error."))).
  - reflexivity.
  - reflexivity.
  - reflexivity.
  - reflexivity.
  - vm_compute. reflexivity.
  - reflexivity.
Defined.

(** An offer that is a number, sent with a message: a WALK response
    (X15). *)
Lemma offer_is_a_number_walks :
  execute (R := oracle_down) (S := willing_server offer_is_a_number true)
  = Did [Enqueued example_task;
         Completed example_task
           (pyj "{'error': '" ++ py "'int' object has no attribute 'get'"
              ++ pyj "', 'action': 'WALK'}")]
        (Ok tt).
Proof.
  refine (eq_trans
            (handler_exception_is_sent_as_walk (R := oracle_down)
               (S := willing_server offer_is_a_number true) offer_is_a_number
               example_task []
               (Exc AttributeError (py "'int' object has no attribute 'get'"))
               _ _ _ _ _ _) _).
  - reflexivity.
  - reflexivity.
  - reflexivity.
  - reflexivity.
  - vm_compute. reflexivity.
  - reflexivity.
  - vm_compute. reflexivity.
Defined.

(** A task that cannot be created: silence (X16). *)
Lemma request_without_task_is_dropped :
  execute (R := oracle_down) (S := server_without_task scenario_A) = Did [] (Ok tt).
Proof.
  apply (early_failure_is_silent (R := oracle_down)
           (S := server_without_task scenario_A)).
  - reflexivity.
  - right. left. eexists. reflexivity.
Defined.

(** A queue that takes no status: the exception of the report leaves
    [execute] (X17). *)
Lemma closed_queue_raises :
  exists t e0,
    update_status (Server := deaf_server offer_is_a_number) t
      (json_dumps (Server := deaf_server offer_is_a_number)
         (JDict [(py "error", JStr (exc_str e0));
                 (py "action", JStr (py "WALK"))]))
    = Raise queue_closed.
Proof.
  apply (execute_raises_only_while_reporting (R := oracle_down)
           (S := deaf_server offer_is_a_number) queue_closed).
  vm_compute. reflexivity.
Defined.

(** [AGENT_PORT=http] with [--port 9000] on the command line (X19). *)
Lemma agent_port_http_stops_main :
  settings int_of_digits_only
    (environ_of [(py "AGENT_PORT", py "http"); (py "PORT", py "8080")])
    {| option_host := None; option_port := Some 9000; option_card_url := None |}
  = Raise (Exc ValueError (py "invalid literal for int() with base 10: 'http'")).
Proof.
  apply (malformed_port_variable_stops_main int_of_digits_only _ _ (py "http")).
  - left. reflexivity.
  - vm_compute. reflexivity.
Defined.
